(** * OF-CONFIG server bootstrap ([server/server.c])

    A shallow embedding of the process entry point of the OF-CONFIG server:
    option parsing, verbosity normalisation, daemonisation, the libnetconf
    bootstrap sequence, the poll loop and the signal handler.

    The C code is a sequence of calls into libc and libnetconf.  Each call
    is recorded in a trace, its result is read from a record of answers
    ([libcalls]) and the few pieces of process state the code or libc touch
    (the [mainloop] flag, the working directory, the [openlog] options) are
    threaded through a small state monad with an early [exit]. *)

From Stdlib Require Import ZArith List String Ascii Bool Lia.
Import ListNotations.

Local Open Scope string_scope.
Local Open Scope list_scope.
Local Open Scope Z_scope.

(* ================================================================== *)
(** ** Constants of the headers *)

(** The values of the macros and enumerators that [server.c] takes from
    [<signal.h>], [<stdlib.h>], [<syslog.h>], [<libnetconf.h>] and
    [common.h], the libc conversion [atoi], and for each signal whether
    its default action leaves the process running (signal(7): ignore,
    stop, continue) instead of ending it.  None of them is defined in
    [server.c], so the development is parametric in them. *)
Record platform := {
  SIGINT : Z;
  SIGQUIT : Z;
  SIGABRT : Z;
  SIGKILL : Z;
  SIGTERM : Z;
  EXIT_SUCCESS : Z;
  EXIT_FAILURE : Z;
  LOG_PID : Z;
  LOG_PERROR : Z;
  LOG_DAEMON : Z;
  NC_VERB_ERROR : Z;
  NC_VERB_DEBUG : Z;
  NC_INIT_ALL : Z;
  NC_INIT_MULTILAYER : Z;
  NCDS_TYPE_FILE : Z;
  ENVIRONMENT_VERBOSE : string;
  atoi : string -> Z;
  default_action_keeps_running : Z -> bool
}.

(** [#define CONFDIR "/etc/ofconfig/"] *)
Definition CONFDIR : string := "/etc/ofconfig/".

(** [#define OPTSTRING "fhv:"] *)
Definition OPTSTRING : string := "fhv:".

(* ------------------------------------------------------------------ *)
(** *** A concrete [atoi]

    [atoi] as glibc implements it, [(int) strtol (nptr, NULL, 10)] on an
    LP64 target: leading white space, an optional sign, the longest run of
    decimal digits; the [long] saturates and the cast keeps the low 32
    bits.  It instantiates [platform] where a theorem is run on concrete
    input. *)

Definition isspace (c : ascii) : bool :=
  let n := Z.of_N (N_of_ascii c) in
  (n =? 32) || ((9 <=? n) && (n <=? 13)).

Definition isdigit (c : ascii) : bool :=
  let n := Z.of_N (N_of_ascii c) in
  (48 <=? n) && (n <=? 57).

Fixpoint skip_spaces (s : string) : string :=
  match s with
  | String c rest => if isspace c then skip_spaces rest else s
  | EmptyString => s
  end.

Fixpoint digits_value (acc : Z) (s : string) : Z :=
  match s with
  | String c rest =>
      if isdigit c
      then digits_value (10 * acc + (Z.of_N (N_of_ascii c) - 48)) rest
      else acc
  | EmptyString => acc
  end.

Definition LONG_MAX : Z := 2 ^ 63 - 1.
Definition LONG_MIN : Z := - 2 ^ 63.

Definition saturate_long (z : Z) : Z :=
  if z <? LONG_MIN then LONG_MIN
  else if z >? LONG_MAX then LONG_MAX
  else z.

Definition strtol10 (s : string) : Z :=
  match skip_spaces s with
  | String "-"%char rest => saturate_long (- digits_value 0 rest)
  | String "+"%char rest => saturate_long (digits_value 0 rest)
  | t => saturate_long (digits_value 0 t)
  end.

(** The conversion of a [long] to [int]: the low 32 bits, signed. *)
Definition to_int (z : Z) : Z := (z + 2 ^ 31) mod 2 ^ 32 - 2 ^ 31.

Definition glibc_atoi (s : string) : Z := to_int (strtol10 s).

(** An instance to run the definitions on: the signal numbers, exit codes
    and syslog options of Linux with glibc (SIGCHLD, SIGCONT, SIGSTOP,
    SIGTSTP, SIGTTIN, SIGTTOU, SIGURG and SIGWINCH are the signals whose
    default action leaves the process running), the verbosity levels of
    libnetconf ([NC_VERB_ERROR] = 0 up to [NC_VERB_DEBUG] = 3), and
    representative values for the remaining libnetconf flags and for the
    name of the environment variable. *)
Definition linux : platform := {|
  SIGINT := 2;
  SIGQUIT := 3;
  SIGABRT := 6;
  SIGKILL := 9;
  SIGTERM := 15;
  EXIT_SUCCESS := 0;
  EXIT_FAILURE := 1;
  LOG_PID := 1;
  LOG_PERROR := 32;
  LOG_DAEMON := 24;
  NC_VERB_ERROR := 0;
  NC_VERB_DEBUG := 3;
  NC_INIT_ALL := 255;
  NC_INIT_MULTILAYER := 256;
  NCDS_TYPE_FILE := 2;
  ENVIRONMENT_VERBOSE := "VERBOSE";
  atoi := glibc_atoi;
  default_action_keeps_running :=
    fun sig => existsb (Z.eqb sig) [17; 18; 19; 20; 21; 22; 23; 28]
|}.

(* ================================================================== *)
(** ** The process and its environment *)

(** Where a message handed to the log ends up. *)
Inductive sink := Syslog | Stderr.

(** What the process does that is visible from outside: the calls into
    libc and libnetconf with their arguments, in program order.  A log
    call carries its format string and the sinks open at that moment. *)
Inductive event :=
| Stdout (text : string)
| Call_sigaction (signum : Z)
| Call_nc_callback_print
| Call_nc_verbosity (level : Z)
| Call_daemon (nochdir noclose : Z)
| Call_openlog (ident : string) (option facility : Z)
| Call_nc_init (flags : Z)
| Call_ncds_add_model (path : string)
| Call_ncds_new_transapi_static (type : Z) (model_path : string)
| Call_ncds_file_set_path (datastore : Z) (path : string)
| Call_ncds_feature_enable (module_name feature : string)
| Call_ncds_init (datastore : Z)
| Call_ncds_consolidate
| Call_ncds_device_init (id : Z) (cpblts : Z) (force : Z)
| Call_nc_verb_error (format : string) (sinks : list sink)
| Call_nc_verb_verbose (format : string) (sinks : list sink)
| Call_sleep (seconds : Z)
| Call_nc_close.

(** The state of the process. [mainloop] is the global of [server.c]; the
    other fields are the parts of the process that [daemon] and [openlog]
    change. *)
Record proc := {
  mainloop : Z;
  cwd : string;
  ctty : bool;
  stdio_devnull : bool;
  logopt : Z;
  trace : list event
}.

(** The process as the kernel starts it: [volatile int mainloop = 0], a
    controlling terminal, the standard streams on it, no [openlog] yet. *)
Definition start (dir : string) : proc := {|
  mainloop := 0;
  cwd := dir;
  ctty := true;
  stdio_devnull := false;
  logopt := 0;
  trace := []
|}.

Definition emit (e : event) (w : proc) : proc := {|
  mainloop := mainloop w;
  cwd := cwd w;
  ctty := ctty w;
  stdio_devnull := stdio_devnull w;
  logopt := logopt w;
  trace := trace w ++ [e]
|}.

Definition set_mainloop (v : Z) (w : proc) : proc := {|
  mainloop := v;
  cwd := cwd w;
  ctty := ctty w;
  stdio_devnull := stdio_devnull w;
  logopt := logopt w;
  trace := trace w
|}.

Definition set_logopt (v : Z) (w : proc) : proc := {|
  mainloop := mainloop w;
  cwd := cwd w;
  ctty := ctty w;
  stdio_devnull := stdio_devnull w;
  logopt := v;
  trace := trace w
|}.

(** The answers of the library calls whose result [main] reads or could
    read. A pointer is its address, [NULL] is 0. The answer of
    [ncds_add_model] and of [ncds_feature_enable] may depend on how many
    calls came before. *)
Record libcalls := {
  daemon_result : Z;
  nc_init_result : Z;
  ncds_add_model_result : nat -> string -> Z;
  ncds_new_transapi_static_result : Z;
  ncds_file_set_path_result : Z;
  ncds_feature_enable_result : nat -> string -> string -> Z;
  ncds_init_result : Z;
  ncds_consolidate_result : Z;
  ncds_device_init_result : Z
}.

(* ================================================================== *)
(** ** Computations: state with an early exit *)

(** How a computation ends: with a value, by a call of [exit], by a
    signal whose action ends the process, or still inside the poll loop
    when the observed schedule is over. *)
Inductive outcome (A : Type) :=
| Ret (a : A)
| Exit (status : Z)
| Killed (sig : Z)
| Polling.

Arguments Ret {A} a.
Arguments Exit {A} status.
Arguments Killed {A} sig.
Arguments Polling {A}.

Definition M (A : Type) : Type := proc -> outcome A * proc.

Definition ret {A} (a : A) : M A := fun w => (Ret a, w).

Definition bind {A B} (m : M A) (k : A -> M B) : M B :=
  fun w =>
    match m w with
    | (Ret a, w') => k a w'
    | (Exit status, w') => (Exit status, w')
    | (Killed sig, w') => (Killed sig, w')
    | (Polling, w') => (Polling, w')
    end.

Declare Scope prog_scope.
Delimit Scope prog_scope with prog.
Notation "x <- m ;; k" := (bind m (fun x => k))
  (at level 61, m at next level, right associativity) : prog_scope.
Notation "m ;; k" := (bind m (fun _ => k))
  (at level 61, right associativity) : prog_scope.
Local Open Scope prog_scope.

(** [exit(status)] *)
Definition exit {A} (status : Z) : M A := fun w => (Exit status, w).

Definition call (e : event) : M unit := fun w => (Ret tt, emit e w).

Definition get_mainloop : M Z := fun w => (Ret (mainloop w), w).

Definition put_mainloop (v : Z) : M unit := fun w => (Ret tt, set_mainloop v w).

(** The exit status of the process, when it has ended by [exit] or by
    the return of [main]. *)
Definition exit_status (r : outcome Z) : option Z :=
  match r with
  | Ret v => Some v
  | Exit status => Some status
  | Killed _ => None
  | Polling => None
  end.

(* ================================================================== *)
(** ** The program *)

Definition newline : string := String (ascii_of_nat 10) EmptyString.

(** The results of the successive calls
    [getopt_long(argc, argv, optstring, longopts, &longindex)] before the
    one that returns -1: the value returned ([next_option]) and [optarg] as
    the call leaves it.  [getopt_long] returns ['?'] for what [optstring]
    and [longopts] do not list. *)
Record getopt_result := {
  next_option : ascii;
  optarg : string
}.

(** One step of the execution during the poll loop: the main thread runs
    up to its next test or call, or a signal arrives.  Where the handler
    is installed it runs (with every signal blocked:
    [sigfillset(&block_mask)]); otherwise the default action of the signal
    is taken. *)
Inductive tick :=
| Run
| Deliver (sig : Z).

(** Where the main thread is inside [while (!mainloop) { sleep(1); }]. *)
Inductive loop_pc :=
| AtTest
| AtSleep.

Section Server.

Variable P : platform.

(* ------------------------------------------------------------------ *)
(** *** libc and libnetconf *)

(** syslog(3): every message goes to the system log, and to standard error
    as well when [LOG_PERROR] is among the options of [openlog]. *)
Definition log_sinks (w : proc) : list sink :=
  if Z.land (logopt w) (LOG_PERROR P) =? 0 then [Syslog] else [Syslog; Stderr].

(** Modelled from the spec: [clb_print] of [common.c], the printer that
    [main] registers with [nc_callback_print], is not among the sources; by
    the spec every message goes to syslog.  [nc_verb_error] and
    [nc_verb_verbose] hand their message to it. *)
Definition nc_verb_error (format : string) : M unit :=
  fun w => (Ret tt, emit (Call_nc_verb_error format (log_sinks w)) w).

Definition nc_verb_verbose (format : string) : M unit :=
  fun w => (Ret tt, emit (Call_nc_verb_verbose format (log_sinks w)) w).

Definition fprintf_stdout (text : string) : M unit := call (Stdout text).

Definition sigaction (signum : Z) : M unit := call (Call_sigaction signum).

Definition nc_callback_print : M unit := call Call_nc_callback_print.

Definition nc_verbosity (level : Z) : M unit := call (Call_nc_verbosity level).

(** daemon(3): on success the process runs in the background, detached
    from its controlling terminal; when [nochdir] is 0 the working
    directory becomes the root directory, when [noclose] is 0 the standard
    streams are redirected to [/dev/null]; the result is 0.  On failure
    nothing changes and the result is not 0. *)
Definition daemon (lib : libcalls) (nochdir noclose : Z) : M Z :=
  fun w =>
    let w1 := emit (Call_daemon nochdir noclose) w in
    if daemon_result lib =? 0 then
      (Ret 0,
       {| mainloop := mainloop w1;
          cwd := if nochdir =? 0 then "/" else cwd w1;
          ctty := false;
          stdio_devnull := if noclose =? 0 then true else stdio_devnull w1;
          logopt := logopt w1;
          trace := trace w1 |})
    else (Ret (daemon_result lib), w1).

Definition openlog (ident : string) (option facility : Z) : M unit :=
  fun w => (Ret tt, set_logopt option (emit (Call_openlog ident option facility) w)).

Definition nc_init (lib : libcalls) (flags : Z) : M Z :=
  call (Call_nc_init flags) ;; ret (nc_init_result lib).

Definition is_add_model (e : event) : bool :=
  match e with Call_ncds_add_model _ => true | _ => false end.

Definition is_feature_enable (e : event) : bool :=
  match e with Call_ncds_feature_enable _ _ => true | _ => false end.

Definition ncds_add_model (lib : libcalls) (path : string) : M Z :=
  fun w =>
    let n := List.length (filter is_add_model (trace w)) in
    (Ret (ncds_add_model_result lib n path), emit (Call_ncds_add_model path) w).

Definition ncds_new_transapi_static (lib : libcalls) (type : Z)
    (model_path : string) : M Z :=
  call (Call_ncds_new_transapi_static type model_path) ;;
  ret (ncds_new_transapi_static_result lib).

Definition ncds_file_set_path (lib : libcalls) (datastore : Z)
    (path : string) : M Z :=
  call (Call_ncds_file_set_path datastore path) ;;
  ret (ncds_file_set_path_result lib).

Definition ncds_feature_enable (lib : libcalls) (module_name feature : string)
    : M Z :=
  fun w =>
    let n := List.length (filter is_feature_enable (trace w)) in
    (Ret (ncds_feature_enable_result lib n module_name feature),
     emit (Call_ncds_feature_enable module_name feature) w).

Definition ncds_init (lib : libcalls) (datastore : Z) : M Z :=
  call (Call_ncds_init datastore) ;; ret (ncds_init_result lib).

Definition ncds_consolidate (lib : libcalls) : M Z :=
  call Call_ncds_consolidate ;; ret (ncds_consolidate_result lib).

Definition ncds_device_init (lib : libcalls) (id cpblts force : Z) : M Z :=
  call (Call_ncds_device_init id cpblts force) ;;
  ret (ncds_device_init_result lib).

Definition nc_close : M unit := call Call_nc_close.

Definition sleep (seconds : Z) : M unit := call (Call_sleep seconds).

(* ------------------------------------------------------------------ *)
(** *** [server.c] *)

(** [print_usage]: four lines on standard output, then [exit(0)]. *)
Definition print_usage (progname : string) : M unit :=
  fprintf_stdout ("Usage: " ++ progname ++ " [-fh] [-v level]" ++ newline)%string ;;
  fprintf_stdout (" -f,--foreground        run in foreground" ++ newline)%string ;;
  fprintf_stdout (" -h,--help              display help" ++ newline)%string ;;
  fprintf_stdout (" -v,--verbose level     verbose output level" ++ newline)%string ;;
  exit 0.

(** The labels [SIGINT], [SIGTERM], [SIGQUIT], [SIGABRT], [SIGKILL] of the
    [switch] in [signal_handler]. *)
Definition termination_signal (sig : Z) : bool :=
  (sig =? SIGINT P) || (sig =? SIGTERM P) || (sig =? SIGQUIT P)
  || (sig =? SIGABRT P) || (sig =? SIGKILL P).

Definition signal_handler (sig : Z) : M unit :=
  nc_verb_verbose "Signal %d received." ;;
  if termination_signal sig then
    m <- get_mainloop ;;
    if m =? 0 then
      (* first attempt *)
      put_mainloop 1
    else
      (* second attempt *)
      (nc_verb_error "Hey! I need some time, be patient next time!" ;;
       exit (EXIT_FAILURE P))
  else
    (nc_verb_error "Exiting on signal: %d" ;;
     exit (EXIT_FAILURE P)).

(** The signals for which [main] has installed [signal_handler] when it
    gets to the poll loop: those of its [sigaction] calls that succeed.
    [sigaction(SIGKILL, ...)] fails, the action of SIGKILL cannot be
    changed. *)
Definition handler_installed (sig : Z) : bool :=
  negb (sig =? SIGKILL P)
  && ((sig =? SIGINT P) || (sig =? SIGQUIT P) || (sig =? SIGABRT P)
      || (sig =? SIGTERM P)).

(** The arrival of a signal in the poll loop: the handler, where one is
    installed; otherwise the default action, which for SIGKILL always and
    for the other signals as signal(7) says ends the process. *)
Definition deliver (sig : Z) : M unit :=
  if handler_installed sig then signal_handler sig
  else if negb (sig =? SIGKILL P) && default_action_keeps_running P sig
       then ret tt
       else fun w => (Killed sig, w).

(** The [while ((next_option = getopt_long(...)) != -1) switch ...] of
    [main], over the results of [getopt_long]; the pair is
    ([daemonize], [verbose]). *)
Fixpoint parse_options (argv0 : string) (options : list getopt_result)
    (daemonize verbose : Z) : M (Z * Z) :=
  match options with
  | [] => ret (daemonize, verbose)
  | o :: rest =>
      if Ascii.eqb (next_option o) "f" then
        parse_options argv0 rest 0 verbose
      else if Ascii.eqb (next_option o) "h" then
        print_usage argv0 ;;
        parse_options argv0 rest daemonize verbose
      else if Ascii.eqb (next_option o) "v" then
        parse_options argv0 rest daemonize (atoi P (optarg o))
      else
        print_usage argv0 ;;
        parse_options argv0 rest daemonize verbose
  end.

(** "normalize value if not from the enum" *)
Definition normalize_verbosity (verbose : Z) : M unit :=
  if verbose <? NC_VERB_ERROR P then nc_verbosity (NC_VERB_ERROR P)
  else if verbose >? NC_VERB_DEBUG P then nc_verbosity (NC_VERB_DEBUG P)
  else nc_verbosity verbose.

(** [while (!mainloop) { sleep(1); }] under a schedule of main-thread
    steps and signals.  When the schedule is used up inside the loop the
    outcome is [Polling]. *)
Fixpoint poll_loop (schedule : list tick) (pc : loop_pc) : M unit :=
  match schedule with
  | [] => fun w => (Polling, w)
  | Deliver sig :: rest => deliver sig ;; poll_loop rest pc
  | Run :: rest =>
      match pc with
      | AtTest =>
          m <- get_mainloop ;;
          if m =? 0 then poll_loop rest AtSleep else ret tt
      | AtSleep => sleep 1 ;; poll_loop rest AtTest
      end
  end.

(** The label [cleanup:] and what follows it. *)
Definition cleanup (retval : Z) : M Z :=
  nc_close ;; ret retval.

Definition cert_to_name_yin : string :=
  (CONFDIR ++ "/ietf-netconf-server/ietf-x509-cert-to-name.yin")%string.

Definition netconf_server_yin : string :=
  (CONFDIR ++ "/ietf-netconf-server/ietf-netconf-server.yin")%string.

Definition datastore_xml : string :=
  (CONFDIR ++ "/ietf-netconf-server/datastore.xml")%string.

(** [main] from "init libnetconf for a multilayer server" to its end.  A
    message is recorded by its format string, without its arguments. *)
Definition bootstrap (lib : libcalls) (schedule : list tick) : M Z :=
  let retval := EXIT_SUCCESS P in
  r <- nc_init lib (Z.lor (NC_INIT_ALL P) (NC_INIT_MULTILAYER P)) ;;
  if r <? 0 then
    nc_verb_error "libnetconf initialization failed." ;;
    ret (EXIT_FAILURE P)
  else
  (* prepare the ietf-netconf-server module *)
  _ <- ncds_add_model lib cert_to_name_yin ;;
  server <- ncds_new_transapi_static lib (NCDS_TYPE_FILE P) netconf_server_yin ;;
  if server =? 0 then
    nc_verb_error "Creating ietf-netconf-server datastore failed." ;;
    cleanup (EXIT_FAILURE P)
  else
  _ <- ncds_file_set_path lib server datastore_xml ;;
  _ <- ncds_add_model lib cert_to_name_yin ;;
  _ <- ncds_feature_enable lib "ietf-netconf-server" "ssh" ;;
  _ <- ncds_feature_enable lib "ietf-netconf-server" "inbound-ssh" ;;
  server_id <- ncds_init lib server ;;
  if server_id <? 0 then
    nc_verb_error
      "Initiating ietf-netconf-server datastore failed (error code %d)." ;;
    cleanup (EXIT_FAILURE P)
  else
  r <- ncds_consolidate lib ;;
  if negb (r =? 0) then
    nc_verb_error "Consoidating data models failed." ;;
    cleanup (EXIT_FAILURE P)
  else
  r <- ncds_device_init lib server_id 0 1 ;;
  if negb (r =? 0) then
    nc_verb_error "Initiating ietf-netconf-server module failed." ;;
    cleanup (EXIT_FAILURE P)
  else
  nc_verb_verbose "OF-CONFIG server successfully initialized." ;;
  poll_loop schedule AtTest ;;
  cleanup retval.

(** "go to the background as a daemon", then the rest of [main]. *)
Definition go_background (lib : libcalls) (daemonize : Z) (rest : M Z) : M Z :=
  if daemonize =? 1 then
    r <- daemon lib 0 0 ;;
    if negb (r =? 0) then
      nc_verb_error "Going to background failed (%s)" ;;
      ret (EXIT_FAILURE P)
    else
      openlog "netopeer-server" (LOG_PID P) (LOG_DAEMON P) ;;
      rest
  else
    openlog "netopeer-server" (Z.lor (LOG_PID P) (LOG_PERROR P)) (LOG_DAEMON P) ;;
    rest.

(** [main].  [argv0] is [argv[0]], [getenv] the environment, [options] what
    [getopt_long] finds in [argv], [lib] the answers of the library and
    [schedule] what happens while the poll loop runs; no signal arrives
    before the loop or after it. *)
Definition main (argv0 : string) (getenv : string -> option string)
    (options : list getopt_result) (lib : libcalls) (schedule : list tick)
    : M Z :=
  (* initialize message system and set verbose and debug variables *)
  let verbose :=
    match getenv (ENVIRONMENT_VERBOSE P) with
    | None => NC_VERB_ERROR P   (* default verbose level *)
    | Some aux_string => atoi P aux_string
    end in
  (* parse given options *)
  dv <- parse_options argv0 options 1 verbose ;;
  let daemonize := fst dv in
  let verbose := snd dv in
  (* set signal handler *)
  sigaction (SIGINT P) ;;
  sigaction (SIGQUIT P) ;;
  sigaction (SIGABRT P) ;;
  sigaction (SIGTERM P) ;;
  sigaction (SIGKILL P) ;;
  (* set verbose message printer callback *)
  nc_callback_print ;;
  normalize_verbosity verbose ;;
  go_background lib daemonize (bootstrap lib schedule).

End Server.

(* ================================================================== *)
(** ** Reading runs *)

(* ------------------------------------------------------------------ *)
(** *** Options and verbosity *)

(** The flags that let [main] go on: [-f] and [-v].  [-h] and whatever
    [getopt_long] does not recognise end in [print_usage]. *)
Definition is_flag (c : ascii) (o : getopt_result) : bool :=
  Ascii.eqb (next_option o) c.

Definition goes_on (o : getopt_result) : bool :=
  is_flag "f" o || is_flag "v" o.

(** [daemonize] and [verbose] after the option loop, as plain functions of
    the options. *)
Definition daemonize_of (options : list getopt_result) (daemonize : Z) : Z :=
  if existsb (is_flag "f") options then 0 else daemonize.

Fixpoint verbose_of (P : platform) (options : list getopt_result)
    (verbose : Z) : Z :=
  match options with
  | [] => verbose
  | o :: rest =>
      verbose_of P rest (if is_flag "v" o then atoi P (optarg o) else verbose)
  end.

(** [verbose] before the option loop. *)
Definition env_verbose (P : platform) (getenv : string -> option string) : Z :=
  match getenv (ENVIRONMENT_VERBOSE P) with
  | None => NC_VERB_ERROR P
  | Some aux_string => atoi P aux_string
  end.

(** The level that [normalize_verbosity] passes on. *)
Definition normalized (P : platform) (verbose : Z) : Z :=
  if verbose <? NC_VERB_ERROR P then NC_VERB_ERROR P
  else if verbose >? NC_VERB_DEBUG P then NC_VERB_DEBUG P
  else verbose.

(** The nearest level of the range of the enumeration. *)
Definition clamp (P : platform) (verbose : Z) : Z :=
  Z.max (NC_VERB_ERROR P) (Z.min (NC_VERB_DEBUG P) verbose).

(** The output of [print_usage]. *)
Definition usage_text (progname : string) : list event :=
  [ Stdout ("Usage: " ++ progname ++ " [-fh] [-v level]" ++ newline)%string;
    Stdout (" -f,--foreground        run in foreground" ++ newline)%string;
    Stdout (" -h,--help              display help" ++ newline)%string;
    Stdout (" -v,--verbose level     verbose output level" ++ newline)%string ].

(* ------------------------------------------------------------------ *)
(** *** Events *)

(** Events appended to the trace, oldest first. *)
Definition emits (es : list event) (w : proc) : proc :=
  fold_left (fun w e => emit e w) es w.

Definition verbosity_level (e : event) : option Z :=
  match e with
  | Call_nc_verbosity level => Some level
  | _ => None
  end.

(** The levels passed to [nc_verbosity], in order. *)
Fixpoint verbosity_calls (tr : list event) : list Z :=
  match tr with
  | [] => []
  | e :: rest =>
      match verbosity_level e with
      | Some level => level :: verbosity_calls rest
      | None => verbosity_calls rest
      end
  end.

Definition is_sleep (e : event) : bool :=
  match e with Call_sleep _ => true | _ => false end.

Definition is_error_log (e : event) : bool :=
  match e with Call_nc_verb_error _ _ => true | _ => false end.

Definition is_daemon_call (e : event) : bool :=
  match e with Call_daemon _ _ => true | _ => false end.

Definition is_nc_close (e : event) : bool :=
  match e with Call_nc_close => true | _ => false end.

(** A message of the log went to [sinks]; every other event passes. *)
Definition logged_to (sinks : list sink) (e : event) : Prop :=
  match e with
  | Call_nc_verb_error _ s => s = sinks
  | Call_nc_verb_verbose _ s => s = sinks
  | _ => True
  end.

(** What the poll loop can add to the trace. *)
Definition poll_event (e : event) : bool :=
  match e with
  | Call_sleep _ => true
  | Call_nc_verb_error _ _ => true
  | Call_nc_verb_verbose _ _ => true
  | _ => false
  end.

(** What the bootstrap and the poll loop can add to the trace: anything
    but the output of [print_usage] and the calls that [main] makes before
    [nc_init]. *)
Definition late_event (e : event) : bool :=
  match e with
  | Stdout _ => false
  | Call_sigaction _ => false
  | Call_nc_callback_print => false
  | Call_nc_verbosity _ => false
  | Call_daemon _ _ => false
  | Call_openlog _ _ _ => false
  | _ => true
  end.

Definition late (P : platform) (w : proc) (e : event) : Prop :=
  late_event e = true /\ logged_to (log_sinks P w) e.

Definition poll_emits (P : platform) (w : proc) (e : event) : Prop :=
  poll_event e = true /\ logged_to (log_sinks P w) e.

(** [w'] is [w] some events later: the process is otherwise the same and
    every new event satisfies [Q]. *)
Definition same_process (w w' : proc) : Prop :=
  cwd w' = cwd w /\ ctty w' = ctty w /\
  stdio_devnull w' = stdio_devnull w /\ logopt w' = logopt w.

Definition extends_with (Q : event -> Prop) (w w' : proc) : Prop :=
  same_process w w' /\
  exists post, trace w' = trace w ++ post /\ Forall Q post.

(* ------------------------------------------------------------------ *)
(** *** Signals and the poll loop *)

(** The signals that [signal_handler] takes as a request to stop. *)
Definition termination_signals (P : platform) : list Z :=
  [SIGINT P; SIGTERM P; SIGQUIT P; SIGABRT P; SIGKILL P].

(** The calls of [sleep] so far, and the main-thread steps of a
    schedule. *)
Definition sleeps (w : proc) : nat := List.length (filter is_sleep (trace w)).

Definition runs (schedule : list tick) : nat :=
  List.length
    (filter (fun t => match t with Run => true | Deliver _ => false end)
       schedule).

(** Bounds for the poll loop once the flag is set: the sleeps still to
    come and the main-thread steps the loop needs to leave. *)
Definition sleeps_left (pc : loop_pc) : nat :=
  match pc with AtTest => 0 | AtSleep => 1 end.

Definition steps_left (pc : loop_pc) : nat :=
  match pc with AtTest => 1 | AtSleep => 2 end.

(* ------------------------------------------------------------------ *)
(** *** The stages of [main] *)

(** The calls of [main] between the option loop and the daemonisation. *)
Definition prelude_calls (P : platform) (level : Z) : list event :=
  [ Call_sigaction (SIGINT P);
    Call_sigaction (SIGQUIT P);
    Call_sigaction (SIGABRT P);
    Call_sigaction (SIGTERM P);
    Call_sigaction (SIGKILL P);
    Call_nc_callback_print;
    Call_nc_verbosity level ].

(** The process once [daemon(0, 0)] has succeeded. *)
Definition daemonized (w : proc) : proc := {|
  mainloop := mainloop w;
  cwd := "/";
  ctty := false;
  stdio_devnull := true;
  logopt := logopt w;
  trace := trace w ++ [Call_daemon 0 0]
|}.

(** The process once [openlog("netopeer-server", option, LOG_DAEMON)] has
    returned. *)
Definition logging (P : platform) (option : Z) (w : proc) : proc :=
  set_logopt option
    (emit (Call_openlog "netopeer-server" option (LOG_DAEMON P)) w).

(** The process after "go to the background as a daemon", when [main]
    goes on, and the calls made there. *)
Definition backgrounded (P : platform) (options : list getopt_result)
    (w : proc) : proc :=
  if existsb (is_flag "f") options
  then logging P (Z.lor (LOG_PID P) (LOG_PERROR P)) w
  else logging P (LOG_PID P) (daemonized w).

Definition background_calls (P : platform) (options : list getopt_result)
    : list event :=
  if existsb (is_flag "f") options
  then [ Call_openlog "netopeer-server" (Z.lor (LOG_PID P) (LOG_PERROR P))
           (LOG_DAEMON P) ]
  else [ Call_daemon 0 0;
         Call_openlog "netopeer-server" (LOG_PID P) (LOG_DAEMON P) ].

(* ------------------------------------------------------------------ *)
(** *** The steps of the bootstrap *)

(** The steps of the bootstrap whose result [main] tests after
    [nc_init]. *)
Inductive checked_step :=
| Construct_datastore
| Initialize_datastore
| Consolidate
| Activate.

(** The library call of a step, its error message, and its failure in the
    sense of the test that [main] makes on the result. *)
Definition step_call (s : checked_step) (e : event) : bool :=
  match s, e with
  | Construct_datastore, Call_ncds_new_transapi_static _ _ => true
  | Initialize_datastore, Call_ncds_init _ => true
  | Consolidate, Call_ncds_consolidate => true
  | Activate, Call_ncds_device_init _ _ _ => true
  | _, _ => false
  end.

Definition step_message (s : checked_step) : string :=
  match s with
  | Construct_datastore => "Creating ietf-netconf-server datastore failed."
  | Initialize_datastore =>
      "Initiating ietf-netconf-server datastore failed (error code %d)."
  | Consolidate => "Consoidating data models failed."
  | Activate => "Initiating ietf-netconf-server module failed."
  end.

Definition step_fails (lib : libcalls) (s : checked_step) : bool :=
  match s with
  | Construct_datastore => ncds_new_transapi_static_result lib =? 0
  | Initialize_datastore => ncds_init_result lib <? 0
  | Consolidate => negb (ncds_consolidate_result lib =? 0)
  | Activate => negb (ncds_device_init_result lib =? 0)
  end.

Definition steps_before (s : checked_step) : list checked_step :=
  match s with
  | Construct_datastore => []
  | Initialize_datastore => [Construct_datastore]
  | Consolidate => [Construct_datastore; Initialize_datastore]
  | Activate => [Construct_datastore; Initialize_datastore; Consolidate]
  end.

Definition steps_from (s : checked_step) : list checked_step :=
  match s with
  | Construct_datastore =>
      [Construct_datastore; Initialize_datastore; Consolidate; Activate]
  | Initialize_datastore => [Initialize_datastore; Consolidate; Activate]
  | Consolidate => [Consolidate; Activate]
  | Activate => [Activate]
  end.

(** The first of the checked steps that fails, if one does. *)
Definition first_failure (lib : libcalls) : option checked_step :=
  find (step_fails lib)
    [Construct_datastore; Initialize_datastore; Consolidate; Activate].

(** The calls of the bootstrap, by stage. *)
Definition init_calls (P : platform) : list event :=
  [ Call_nc_init (Z.lor (NC_INIT_ALL P) (NC_INIT_MULTILAYER P)) ].

Definition construct_calls (P : platform) : list event :=
  [ Call_ncds_add_model cert_to_name_yin;
    Call_ncds_new_transapi_static (NCDS_TYPE_FILE P) netconf_server_yin ].

Definition configure_calls (lib : libcalls) : list event :=
  [ Call_ncds_file_set_path (ncds_new_transapi_static_result lib) datastore_xml;
    Call_ncds_add_model cert_to_name_yin;
    Call_ncds_feature_enable "ietf-netconf-server" "ssh";
    Call_ncds_feature_enable "ietf-netconf-server" "inbound-ssh";
    Call_ncds_init (ncds_new_transapi_static_result lib) ].

Definition consolidate_calls : list event :=
  [ Call_ncds_consolidate ].

Definition activate_calls (lib : libcalls) : list event :=
  [ Call_ncds_device_init (ncds_init_result lib) 0 1 ].

(** The calls up to and including the one of step [s]. *)
Definition calls_through (P : platform) (lib : libcalls) (s : checked_step)
    : list event :=
  match s with
  | Construct_datastore => init_calls P ++ construct_calls P
  | Initialize_datastore =>
      init_calls P ++ construct_calls P ++ configure_calls lib
  | Consolidate =>
      init_calls P ++ construct_calls P ++ configure_calls lib
      ++ consolidate_calls
  | Activate =>
      init_calls P ++ construct_calls P ++ configure_calls lib
      ++ consolidate_calls ++ activate_calls lib
  end.

(** The answers of the library with other answers for the calls whose
    result [main] drops. *)
Definition with_unchecked_results (add_model : nat -> string -> Z)
    (file_set_path : Z) (feature_enable : nat -> string -> string -> Z)
    (lib : libcalls) : libcalls := {|
  daemon_result := daemon_result lib;
  nc_init_result := nc_init_result lib;
  ncds_add_model_result := add_model;
  ncds_new_transapi_static_result := ncds_new_transapi_static_result lib;
  ncds_file_set_path_result := file_set_path;
  ncds_feature_enable_result := feature_enable;
  ncds_init_result := ncds_init_result lib;
  ncds_consolidate_result := ncds_consolidate_result lib;
  ncds_device_init_result := ncds_device_init_result lib
|}.

(* ================================================================== *)
(** ** Sample inputs *)

(** Answers of the library: the results of [daemon], [nc_init],
    [ncds_new_transapi_static], [ncds_init], [ncds_consolidate] and
    [ncds_device_init]; the calls whose result [main] drops succeed. *)
Definition answers (daemon_r nc_init_r new_r init_r consolidate_r activate_r : Z)
    : libcalls := {|
  daemon_result := daemon_r;
  nc_init_result := nc_init_r;
  ncds_add_model_result := fun _ _ => 0;
  ncds_new_transapi_static_result := new_r;
  ncds_file_set_path_result := 0;
  ncds_feature_enable_result := fun _ _ _ => 0;
  ncds_init_result := init_r;
  ncds_consolidate_result := consolidate_r;
  ncds_device_init_result := activate_r
|}.

Definition all_succeed : libcalls := answers 0 0 4096 7 0 0.
Definition daemon_fails : libcalls := answers (-1) 0 4096 7 0 0.
Definition nc_init_fails : libcalls := answers 0 (-1) 4096 7 0 0.
Definition construction_fails : libcalls := answers 0 0 0 7 0 0.
Definition consolidation_fails : libcalls := answers 0 0 4096 7 1 0.

(** Every call whose result [main] drops fails. *)
Definition unchecked_fail : libcalls :=
  with_unchecked_results (fun _ _ => 1) 1 (fun _ _ _ => 1) all_succeed.

Definition no_environment : string -> option string := fun _ => None.

Definition flag_f : getopt_result := {| next_option := "f"; optarg := EmptyString |}.
Definition flag_h : getopt_result := {| next_option := "h"; optarg := EmptyString |}.
Definition flag_v (level : string) : getopt_result :=
  {| next_option := "v"; optarg := level |}.

(* ================================================================== *)
(** ** Observations on whole runs *)

Definition is_nc_init (e : event) : bool :=
  match e with Call_nc_init _ => true | _ => false end.

(** The calls that [main] makes between the option loop and the
    daemonisation. *)
Definition is_prelude_call (e : event) : bool :=
  match e with
  | Call_sigaction _ => true
  | Call_nc_callback_print => true
  | Call_nc_verbosity _ => true
  | _ => false
  end.

(** The number of error messages and of calls of [nc_close] in a trace. *)
Definition errors (tr : list event) : nat :=
  List.length (filter is_error_log tr).

Definition closes (tr : list event) : nat :=
  List.length (filter is_nc_close tr).

(** The number of [exit]s in an outcome. *)
Definition exits {A} (r : outcome A) : nat :=
  match r with Exit _ => 1%nat | _ => 0%nat end.

Definition returned {A} (r : outcome A) : bool :=
  match r with Ret _ => true | _ => false end.

(** The last event of a trace is the call of [nc_close]. *)
Definition ends_with_close (tr : list event) : bool :=
  is_nc_close (last tr (Stdout EmptyString)).

(** The message that [main] logs when the bootstrap is done. *)
Definition is_ready (e : event) : bool :=
  match e with
  | Call_nc_verb_verbose format _ =>
      String.eqb format "OF-CONFIG server successfully initialized."
  | _ => false
  end.

(** The calls into libnetconf that make up the bootstrap. *)
Definition bootstrap_call (e : event) : bool :=
  match e with
  | Call_nc_init _ => true
  | Call_ncds_add_model _ => true
  | Call_ncds_new_transapi_static _ _ => true
  | Call_ncds_file_set_path _ _ => true
  | Call_ncds_feature_enable _ _ => true
  | Call_ncds_init _ => true
  | Call_ncds_consolidate => true
  | Call_ncds_device_init _ _ _ => true
  | _ => false
  end.

(** What is seen of a run from outside: how it ended, the number of error
    messages, the number of calls of [nc_close], whether [nc_init] was
    called, whether [nc_close] came last, and whether the bootstrap was
    reported done. *)
Definition observation (r : outcome Z * proc)
    : outcome Z * nat * nat * bool * bool * bool :=
  (fst r, errors (trace (snd r)), closes (trace (snd r)),
   existsb is_nc_init (trace (snd r)), ends_with_close (trace (snd r)),
   existsb is_ready (trace (snd r))).

(** The process when [main] gets to the bootstrap. *)
Definition bootstrap_start (P : platform) (getenv : string -> option string)
    (options : list getopt_result) (dir : string) : proc :=
  backgrounded P options
    (emits
       (prelude_calls P
          (normalized P (verbose_of P options (env_verbose P getenv))))
       (start dir)).

(** The trace when [main] gets to the bootstrap. *)
Definition trace_at_bootstrap (P : platform)
    (getenv : string -> option string) (options : list getopt_result)
    : list event :=
  prelude_calls P (normalized P (verbose_of P options (env_verbose P getenv)))
  ++ background_calls P options.

(** What [getopt_long] returns for an option that is not listed. *)
Definition flag_unknown : getopt_result :=
  {| next_option := "?"; optarg := EmptyString |}.

(* ================================================================== *)
(** ** Runs on sample inputs *)

Example atoi_samples :
  glibc_atoi "2" = 2 /\ glibc_atoi "  -12abc" = -12 /\
  glibc_atoi "verbose" = 0 /\ glibc_atoi "99999999999" = 1215752191.
Proof. repeat split. Qed.

(** In the foreground with [-v 2]: the bootstrap goes through, [SIGTERM]
    arrives during the first sleep, the loop is left at the next test and
    [main] returns [EXIT_SUCCESS] after [nc_close]. *)
Example foreground_run :
  let r := main linux "ofc-server" no_environment [flag_f; flag_v "2"]
             all_succeed [Run; Deliver 15; Run; Run] (start "/home/ofc") in
  fst r = Ret 0 /\
  mainloop (snd r) = 1 /\
  cwd (snd r) = "/home/ofc" /\
  verbosity_calls (trace (snd r)) = [2] /\
  sleeps (snd r) = 1%nat /\
  last (trace (snd r)) (Stdout EmptyString) = Call_nc_close.
Proof. vm_compute. repeat split. Qed.

(** A second [SIGINT] before the loop gets to its test ends the process
    with [EXIT_FAILURE], without [nc_close]. *)
Example impatient_run :
  let r := main linux "ofc-server" no_environment [flag_f]
             all_succeed [Run; Deliver 2; Deliver 2; Run; Run]
             (start "/home/ofc") in
  fst r = Exit 1 /\ existsb is_nc_close (trace (snd r)) = false.
Proof. vm_compute. repeat split. Qed.

(** In the poll loop SIGUSR1, which has no handler, and SIGKILL, whose
    handler cannot be installed, end the process; SIGCHLD passes. *)
Example signals_without_handler :
  poll_loop linux [Deliver 10; Run] AtTest (start "/") = (Killed 10, start "/")
  /\ poll_loop linux [Deliver 9; Run] AtTest (start "/") = (Killed 9, start "/")
  /\ poll_loop linux [Deliver 17; Run] AtTest (start "/")
     = poll_loop linux [Run] AtTest (start "/").
Proof. repeat split. Qed.

(* ================================================================== *)
(** ** Lemmas on the model *)

Lemma is_flag_eq c o : is_flag c o = true <-> next_option o = c.
Proof. unfold is_flag. apply Ascii.eqb_eq. Qed.

Lemma trace_emits es : forall w, trace (emits es w) = trace w ++ es.
Proof.
  induction es as [|e es IH]; intros w; cbn [emits fold_left].
  - now rewrite app_nil_r.
  - change (trace (emits es (emit e w)) = trace w ++ e :: es).
    rewrite IH. cbn [emit trace]. now rewrite <- app_assoc.
Qed.

Lemma same_process_emits es : forall w, same_process w (emits es w).
Proof.
  induction es as [|e es IH]; intros w.
  - repeat split.
  - change (same_process w (emits es (emit e w))).
    destruct (IH (emit e w)) as (H1 & H2 & H3 & H4).
    repeat split; assumption.
Qed.

Lemma log_sinks_same P w w' :
  same_process w w' -> log_sinks P w' = log_sinks P w.
Proof. intros (_ & _ & _ & Hl). unfold log_sinks. now rewrite Hl. Qed.

(** The option loop: either every option is [-f] or [-v] and the loop
    ends with the two variables set, or [print_usage] ends the process. *)
Lemma parse_options_goes_on P argv0 options :
  forallb goes_on options = true ->
  forall daemonize verbose w,
    parse_options P argv0 options daemonize verbose w
    = (Ret (daemonize_of options daemonize, verbose_of P options verbose), w).
Proof.
  induction options as [|o rest IH]; intros Hall daemonize verbose w.
  - reflexivity.
  - cbn [forallb] in Hall. apply andb_true_iff in Hall as [Ho Hrest].
    cbn [parse_options verbose_of]. unfold daemonize_of. cbn [existsb].
    unfold goes_on in Ho.
    fold (is_flag "f" o). fold (is_flag "h" o). fold (is_flag "v" o).
    destruct (is_flag "f" o) eqn:Ef.
    + rewrite (IH Hrest). unfold daemonize_of.
      apply is_flag_eq in Ef.
      assert (Ev : is_flag "v" o = false)
        by (unfold is_flag; rewrite Ef; reflexivity).
      rewrite Ev. cbn. destruct (existsb _ rest); reflexivity.
    + cbn in Ho. rewrite Ho.
      assert (Eh : is_flag "h" o = false)
        by (apply is_flag_eq in Ho; unfold is_flag; rewrite Ho; reflexivity).
      rewrite Eh. rewrite (IH Hrest). reflexivity.
Qed.

Lemma parse_options_usage P argv0 options :
  forallb goes_on options = false ->
  forall daemonize verbose w,
    parse_options P argv0 options daemonize verbose w
    = (Exit 0, emits (usage_text argv0) w).
Proof.
  induction options as [|o rest IH]; intros Hall daemonize verbose w.
  - discriminate.
  - cbn [forallb] in Hall. cbn [parse_options].
    fold (is_flag "f" o). fold (is_flag "h" o). fold (is_flag "v" o).
    unfold goes_on in Hall.
    destruct (is_flag "f" o) eqn:Ef; [ apply IH; exact Hall |].
    destruct (is_flag "h" o) eqn:Eh; [ reflexivity |].
    destruct (is_flag "v" o) eqn:Ev; [ apply IH; exact Hall |].
    reflexivity.
Qed.

Lemma help_stops options :
  existsb (is_flag "h") options = true -> forallb goes_on options = false.
Proof.
  induction options as [|o rest IH]; cbn [existsb forallb]; [ discriminate |].
  intros H. apply orb_true_iff in H as [Ho | Hrest].
  - apply is_flag_eq in Ho. unfold goes_on, is_flag. rewrite Ho. reflexivity.
  - rewrite (IH Hrest). apply andb_false_r.
Qed.

Lemma normalize_verbosity_run P verbose w :
  normalize_verbosity P verbose w
  = (Ret tt, emit (Call_nc_verbosity (normalized P verbose)) w).
Proof.
  unfold normalize_verbosity, normalized.
  destruct (verbose <? NC_VERB_ERROR P); [ reflexivity |].
  destruct (verbose >? NC_VERB_DEBUG P); reflexivity.
Qed.

Lemma normalized_clamp P verbose :
  NC_VERB_ERROR P <= NC_VERB_DEBUG P ->
  normalized P verbose = clamp P verbose.
Proof.
  intros Hrange. unfold normalized, clamp.
  destruct (verbose <? NC_VERB_ERROR P) eqn:E1.
  - apply Z.ltb_lt in E1. lia.
  - apply Z.ltb_ge in E1.
    destruct (verbose >? NC_VERB_DEBUG P) eqn:E2.
    + apply Z.gtb_lt in E2. lia.
    + rewrite Z.gtb_ltb in E2. apply Z.ltb_ge in E2. lia.
Qed.

Lemma clamp_in_range P verbose :
  NC_VERB_ERROR P <= NC_VERB_DEBUG P ->
  NC_VERB_ERROR P <= clamp P verbose <= NC_VERB_DEBUG P.
Proof. unfold clamp. lia. Qed.

(** [main] up to the daemonisation. *)
Lemma main_goes_on P argv0 getenv options lib schedule w :
  forallb goes_on options = true ->
  main P argv0 getenv options lib schedule w
  = go_background P lib (daemonize_of options 1) (bootstrap P lib schedule)
      (emits
         (prelude_calls P
            (normalized P (verbose_of P options (env_verbose P getenv))))
         w).
Proof.
  intros Hall. unfold main. unfold bind at 1.
  rewrite (parse_options_goes_on P argv0 options Hall).
  unfold bind, sigaction, nc_callback_print, call.
  rewrite normalize_verbosity_run. reflexivity.
Qed.

Lemma main_usage P argv0 getenv options lib schedule w :
  forallb goes_on options = false ->
  main P argv0 getenv options lib schedule w
  = (Exit 0, emits (usage_text argv0) w).
Proof.
  intros Hstop. unfold main. unfold bind at 1.
  rewrite (parse_options_usage P argv0 options Hstop). reflexivity.
Qed.

(** The three ways through "go to the background as a daemon". *)
Lemma go_background_foreground P lib options rest w :
  existsb (is_flag "f") options = true ->
  go_background P lib (daemonize_of options 1) rest w
  = rest (logging P (Z.lor (LOG_PID P) (LOG_PERROR P)) w).
Proof. intros Hf. unfold daemonize_of. rewrite Hf. reflexivity. Qed.

Lemma go_background_daemon P lib options rest w :
  existsb (is_flag "f") options = false ->
  daemon_result lib = 0 ->
  go_background P lib (daemonize_of options 1) rest w
  = rest (logging P (LOG_PID P) (daemonized w)).
Proof.
  intros Hf Hd. unfold daemonize_of. rewrite Hf.
  unfold go_background, bind, daemon. rewrite Hd. reflexivity.
Qed.

Lemma go_background_fails P lib options rest w :
  existsb (is_flag "f") options = false ->
  daemon_result lib <> 0 ->
  go_background P lib (daemonize_of options 1) rest w
  = (Ret (EXIT_FAILURE P),
     emits [ Call_daemon 0 0;
             Call_nc_verb_error "Going to background failed (%s)" (log_sinks P w) ]
       w).
Proof.
  intros Hf Hd. unfold daemonize_of. rewrite Hf.
  unfold go_background, bind, daemon.
  apply Z.eqb_neq in Hd. rewrite Hd. cbn [negb]. rewrite Hd. reflexivity.
Qed.

(** The bootstrap, case by case: [nc_init] fails, one of the checked
    steps fails, or the poll loop is reached. *)
Lemma bootstrap_run P lib schedule w :
  bootstrap P lib schedule w
  = if nc_init_result lib <? 0 then
      (Ret (EXIT_FAILURE P),
       emits
         (init_calls P
          ++ [Call_nc_verb_error "libnetconf initialization failed."
                (log_sinks P w)])
         w)
    else
      match first_failure lib with
      | Some s =>
          (Ret (EXIT_FAILURE P),
           emits
             (calls_through P lib s
              ++ [Call_nc_verb_error (step_message s) (log_sinks P w);
                  Call_nc_close])
             w)
      | None =>
          (poll_loop P schedule AtTest ;; cleanup (EXIT_SUCCESS P))
            (emits
               (calls_through P lib Activate
                ++ [Call_nc_verb_verbose
                      "OF-CONFIG server successfully initialized."
                      (log_sinks P w)])
               w)
      end.
Proof.
  unfold bootstrap, first_failure, find, step_fails.
  unfold bind, nc_init, ncds_add_model, ncds_new_transapi_static,
    ncds_file_set_path, ncds_feature_enable, ncds_init, ncds_consolidate,
    ncds_device_init, call, ret, bind.
  destruct (nc_init_result lib <? 0); [ vm_compute; reflexivity |].
  destruct (ncds_new_transapi_static_result lib =? 0);
    [ vm_compute; reflexivity |].
  destruct (ncds_init_result lib <? 0); [ vm_compute; reflexivity |].
  destruct (ncds_consolidate_result lib =? 0); [| vm_compute; reflexivity ].
  destruct (ncds_device_init_result lib =? 0); vm_compute; reflexivity.
Qed.

Lemma extends_with_refl Q w : extends_with Q w w.
Proof.
  split; [ repeat split |].
  exists []. rewrite app_nil_r. split; [ reflexivity | constructor ].
Qed.

Lemma extends_with_emit Q e w w' :
  Q e -> extends_with Q (emit e w) w' -> extends_with Q w w'.
Proof.
  intros Qe [(Hc & Ht & Hs & Hl) (post & Htr & Hpost)].
  split; [ repeat split; assumption |].
  exists (e :: post). split.
  - rewrite Htr. cbn [emit trace]. rewrite <- app_assoc. reflexivity.
  - constructor; assumption.
Qed.

Lemma extends_with_emits Q es w w' :
  Forall Q es -> extends_with Q (emits es w) w' -> extends_with Q w w'.
Proof.
  intros Qes [Hsame (post & Htr & Hpost)].
  pose proof (same_process_emits es w) as (H1 & H2 & H3 & H4).
  destruct Hsame as (K1 & K2 & K3 & K4).
  split; [ repeat split; congruence |].
  exists (es ++ post). split.
  - rewrite Htr, trace_emits, <- app_assoc. reflexivity.
  - apply Forall_app. split; assumption.
Qed.

Lemma extends_with_weaken (Q Q' : event -> Prop) w w' :
  (forall e, Q e -> Q' e) -> extends_with Q w w' -> extends_with Q' w w'.
Proof.
  intros HQ [Hsame (post & Htr & Hpost)].
  split; [ assumption |].
  exists post. split; [ assumption |].
  eapply Forall_impl; [ exact HQ | exact Hpost ].
Qed.

(** The signal handler, case by case. *)
Lemma signal_handler_run P sig w :
  signal_handler P sig w
  = let w1 :=
      emit (Call_nc_verb_verbose "Signal %d received." (log_sinks P w)) w in
    if termination_signal P sig then
      if mainloop w =? 0 then (Ret tt, set_mainloop 1 w1)
      else
        (Exit (EXIT_FAILURE P),
         emit
           (Call_nc_verb_error "Hey! I need some time, be patient next time!"
              (log_sinks P w))
           w1)
    else
      (Exit (EXIT_FAILURE P),
       emit (Call_nc_verb_error "Exiting on signal: %d" (log_sinks P w)) w1).
Proof.
  unfold signal_handler, bind, nc_verb_verbose, nc_verb_error, get_mainloop,
    put_mainloop, exit.
  cbn zeta. destruct (termination_signal P sig); [| reflexivity ].
  cbn [emit mainloop]. destruct (mainloop w =? 0); reflexivity.
Qed.

(** The three things the arrival of a signal can be. *)
Lemma deliver_cases P sig w :
  handler_installed P sig = true /\ deliver P sig w = signal_handler P sig w
  \/ handler_installed P sig = false /\ deliver P sig w = (Ret tt, w)
  \/ handler_installed P sig = false /\ deliver P sig w = (Killed sig, w).
Proof.
  unfold deliver. destruct (handler_installed P sig); [ now left | right ].
  destruct (negb (sig =? SIGKILL P) && default_action_keeps_running P sig);
    [ now left | now right ].
Qed.

Lemma handler_installed_termination P sig :
  handler_installed P sig = true -> termination_signal P sig = true.
Proof.
  unfold handler_installed, termination_signal. intros H.
  apply andb_true_iff in H as [_ H].
  destruct (sig =? SIGINT P), (sig =? SIGQUIT P), (sig =? SIGABRT P),
    (sig =? SIGTERM P); try discriminate H; cbn; rewrite ?orb_true_r;
    reflexivity.
Qed.

(** The poll loop only sleeps and logs, and leaves the process as it is. *)
Lemma poll_loop_frame P schedule :
  forall pc w,
    extends_with (poll_emits P w) w (snd (poll_loop P schedule pc w)).
Proof.
  induction schedule as [|t rest IH]; intros pc w.
  - apply extends_with_refl.
  - destruct t as [|sig].
    + destruct pc; cbn [poll_loop]; unfold bind, get_mainloop, sleep, call.
      * destruct (mainloop w =? 0); [ apply IH | apply extends_with_refl ].
      * apply extends_with_emit with (e := Call_sleep 1).
        -- split; [ reflexivity | exact I ].
        -- apply (IH AtTest (emit (Call_sleep 1) w)).
    + cbn [poll_loop]. unfold bind at 1.
      destruct (deliver_cases P sig w) as [[_ ->] | [[_ ->] | [_ ->]]];
        [| apply IH | apply extends_with_refl ].
      rewrite signal_handler_run. cbn zeta.
      apply extends_with_emit
        with (e := Call_nc_verb_verbose "Signal %d received." (log_sinks P w)).
      { split; reflexivity. }
      destruct (termination_signal P sig).
      * destruct (mainloop w =? 0).
        -- apply (IH pc (set_mainloop 1 (emit _ w))).
        -- eapply extends_with_emit; [| apply extends_with_refl ].
           split; reflexivity.
      * eapply extends_with_emit; [| apply extends_with_refl ].
        split; reflexivity.
Qed.

Lemma poll_emits_late P w w0 e :
  same_process w0 w -> poll_emits P w e -> late P w0 e.
Proof.
  intros Hsame [Hp Hl]. rewrite (log_sinks_same P w0 w Hsame) in Hl.
  split; [| exact Hl ].
  destruct e; try discriminate; reflexivity.
Qed.

(** The bootstrap adds bootstrap and poll-loop events only; what it logs
    goes where the log went when it started. *)
Lemma bootstrap_frame P lib schedule w :
  extends_with (late P w) w (snd (bootstrap P lib schedule w)).
Proof.
  rewrite bootstrap_run.
  destruct (nc_init_result lib <? 0).
  - cbn [snd]. eapply extends_with_emits; [| apply extends_with_refl ].
    repeat constructor.
  - destruct (first_failure lib) as [s|].
    + cbn [snd]. eapply extends_with_emits; [| apply extends_with_refl ].
      destruct s; repeat constructor.
    + set (es := calls_through P lib Activate ++ _).
      apply extends_with_emits with (es := es); [ repeat constructor |].
      set (w1 := emits es w).
      assert (Hsame : same_process w w1) by apply same_process_emits.
      unfold bind.
      pose proof (poll_loop_frame P schedule AtTest w1) as Hloop.
      destruct (poll_loop P schedule AtTest w1) as [[[]| status | sig |] w2];
        cbn [snd] in Hloop |- *.
      * unfold cleanup, bind, nc_close, call, ret. cbn [snd].
        destruct Hloop as [Hs2 (post & Htr & Hpost)].
        split; [ exact Hs2 |].
        exists (post ++ [Call_nc_close]). split.
        -- cbn [emit trace]. rewrite Htr, <- app_assoc. reflexivity.
        -- apply Forall_app. split.
           ++ eapply Forall_impl; [| exact Hpost ].
              intros e He. eapply poll_emits_late; [| exact He ].
              repeat split.
           ++ repeat constructor.
      * eapply extends_with_weaken; [| exact Hloop ].
        intros e He. eapply poll_emits_late; [| exact He ]. repeat split.
      * eapply extends_with_weaken; [| exact Hloop ].
        intros e He. eapply poll_emits_late; [| exact He ]. repeat split.
      * eapply extends_with_weaken; [| exact Hloop ].
        intros e He. eapply poll_emits_late; [| exact He ]. repeat split.
Qed.

Lemma main_bootstraps P argv0 getenv options lib schedule w :
  forallb goes_on options = true ->
  existsb (is_flag "f") options = true \/ daemon_result lib = 0 ->
  main P argv0 getenv options lib schedule w
  = bootstrap P lib schedule
      (backgrounded P options
         (emits
            (prelude_calls P
               (normalized P (verbose_of P options (env_verbose P getenv))))
            w)).
Proof.
  intros Hall Hbg. rewrite main_goes_on by assumption. unfold backgrounded.
  destruct (existsb (is_flag "f") options) eqn:Hf.
  - now apply go_background_foreground.
  - destruct Hbg as [Hbg | Hbg]; [ discriminate |].
    now apply go_background_daemon.
Qed.

Lemma main_daemon_fails P argv0 getenv options lib schedule w :
  forallb goes_on options = true ->
  existsb (is_flag "f") options = false ->
  daemon_result lib <> 0 ->
  main P argv0 getenv options lib schedule w
  = (Ret (EXIT_FAILURE P),
     emits
       (prelude_calls P
          (normalized P (verbose_of P options (env_verbose P getenv)))
        ++ [ Call_daemon 0 0;
             Call_nc_verb_error "Going to background failed (%s)"
               (log_sinks P w) ])
       w).
Proof.
  intros Hall Hf Hd. rewrite main_goes_on by assumption.
  rewrite go_background_fails by assumption. reflexivity.
Qed.

Lemma trace_backgrounded P options w :
  trace (backgrounded P options w) = trace w ++ background_calls P options.
Proof.
  unfold backgrounded, background_calls.
  destruct (existsb (is_flag "f") options); cbn; [ reflexivity |].
  now rewrite <- app_assoc.
Qed.

Lemma termination_signal_in P sig :
  termination_signal P sig = true <-> In sig (termination_signals P).
Proof.
  unfold termination_signal, termination_signals. cbn [In].
  rewrite !orb_true_iff, !Z.eqb_eq. intuition congruence.
Qed.

Lemma sleeps_emit e w :
  sleeps (emit e w) = (sleeps w + if is_sleep e then 1 else 0)%nat.
Proof.
  unfold sleeps. cbn [emit trace]. rewrite filter_app, length_app.
  cbn [filter]. destruct (is_sleep e); reflexivity.
Qed.

(** Once the flag is set it stays set and the loop is left at the next
    test: a handled signal ends the process in the handler, a signal
    without a handler ends it or passes, the test ends the loop, and a
    sleep under way is the only one left. *)
Lemma poll_loop_flag_set P schedule :
  forall pc w,
    mainloop w <> 0 ->
    let r := poll_loop P schedule pc w in
    mainloop (snd r) = mainloop w /\
    (sleeps (snd r) <= sleeps w + sleeps_left pc)%nat /\
    ((steps_left pc <= runs schedule)%nat ->
     fst r = Ret tt \/ fst r = Exit (EXIT_FAILURE P)
     \/ exists sig, fst r = Killed sig).
Proof.
  induction schedule as [|t rest IH]; intros pc w Hset; cbn zeta.
  - cbn [poll_loop snd fst runs filter List.length].
    split; [ reflexivity |]. split; [ lia |].
    destruct pc; cbn [steps_left]; lia.
  - destruct t as [|sig].
    + destruct pc; cbn [poll_loop];
        unfold bind, get_mainloop, sleep, call, ret.
      * apply Z.eqb_neq in Hset. rewrite Hset. cbn [snd fst].
        split; [ reflexivity |]. split; [ lia | now left ].
      * destruct (IH AtTest (emit (Call_sleep 1) w) Hset) as (Hm & Hs & Ht).
        rewrite sleeps_emit in Hs. cbn [is_sleep sleeps_left] in Hs |- *.
        split; [ exact Hm |]. split; [ lia |].
        intros Hruns. apply Ht. unfold runs in Hruns |- *.
        cbn [filter List.length steps_left] in Hruns |- *. lia.
    + cbn [poll_loop]. unfold bind.
      destruct (deliver_cases P sig w) as [[_ ->] | [[_ ->] | [_ ->]]].
      * rewrite signal_handler_run. cbn zeta.
        apply Z.eqb_neq in Hset. rewrite Hset.
        destruct (termination_signal P sig); cbn [snd fst];
          rewrite !sleeps_emit; cbn [is_sleep];
          (split; [ reflexivity |]); (split; [ lia |]);
          intros _; right; now left.
      * apply (IH pc w Hset).
      * cbn [snd fst]. split; [ reflexivity |]. split; [ lia |].
        intros _. right. right. now exists sig.
Qed.

(** With the flag set and no further signal, the loop is left. *)
Lemma poll_loop_undisturbed P n :
  forall pc w,
    mainloop w <> 0 ->
    (steps_left pc <= n)%nat ->
    fst (poll_loop P (repeat Run n) pc w) = Ret tt.
Proof.
  induction n as [|n IH]; intros pc w Hset Hn.
  - destruct pc; cbn [steps_left] in Hn; lia.
  - apply Z.eqb_neq in Hset. cbn [repeat poll_loop].
    destruct pc; unfold bind, get_mainloop, sleep, call, ret.
    + rewrite Hset. reflexivity.
    + apply IH; [ now apply Z.eqb_neq |]. cbn [steps_left] in Hn |- *. lia.
Qed.

(* ================================================================== *)
(** ** The signal handler and the poll loop *)

(** C2. In [signal_handler], a termination signal (SIGINT, SIGTERM,
    SIGQUIT, SIGABRT, SIGKILL) delivered while [mainloop] is 0 sets it to 1
    and the handler returns; delivered while [mainloop] is 1 it ends the
    process with [EXIT_FAILURE]; any other signal ends the process with
    [EXIT_FAILURE] whatever the flag. *)
Theorem signal_handler_two_strikes P sig w :
  (In sig (termination_signals P) ->
   (mainloop w = 0 ->
    fst (signal_handler P sig w) = Ret tt /\
    mainloop (snd (signal_handler P sig w)) = 1) /\
   (mainloop w = 1 ->
    fst (signal_handler P sig w) = Exit (EXIT_FAILURE P))) /\
  (~ In sig (termination_signals P) ->
   fst (signal_handler P sig w) = Exit (EXIT_FAILURE P)).
Proof.
  rewrite signal_handler_run. cbn zeta. split.
  - intros Hin. apply termination_signal_in in Hin. rewrite Hin. split.
    + intros H0. rewrite H0. cbn. split; reflexivity.
    + intros H1. rewrite H1. reflexivity.
  - intros Hout.
    destruct (termination_signal P sig) eqn:E; [| reflexivity ].
    apply termination_signal_in in E. contradiction.
Qed.

Lemma signal_handler_two_strikes_witness :
  mainloop (snd (signal_handler linux 15 (start "/"))) = 1 /\
  fst (signal_handler linux 15 (set_mainloop 1 (start "/"))) = Exit 1 /\
  fst (signal_handler linux 10 (start "/")) = Exit 1.
Proof.
  assert (Hin : In 15 (termination_signals linux)) by (cbn; tauto).
  assert (Hout : ~ In 10 (termination_signals linux))
    by (cbn; intros H; repeat destruct H as [H | H]; try discriminate H; exact H).
  split; [| split ].
  - apply (proj1 (signal_handler_two_strikes linux 15 (start "/")) Hin).
    reflexivity.
  - apply (proj1 (signal_handler_two_strikes linux 15
                    (set_mainloop 1 (start "/"))) Hin).
    reflexivity.
  - apply (proj2 (signal_handler_two_strikes linux 10 (start "/")) Hout).
Defined.

(** C7. The loop tests [mainloop] before each [sleep(1)] and sleeps only
    when the flag is 0.  When a signal whose handler is installed (SIGINT,
    SIGQUIT, SIGABRT, SIGTERM) finds the flag at 0, the handler sets the
    flag to 1 and the loop goes on from where it was; from then on the
    flag stays 1, the loop sleeps at most once more (not at all when the
    main thread is at the test), and within two steps of the main thread
    the loop is left at its test, unless a further signal has ended the
    process before; with no further signal the loop is left.  SIGKILL,
    which [sigaction] cannot catch, ends the process at once. *)
Theorem poll_loop_exits_after_signal P :
  (forall schedule w,
     poll_loop P (Run :: schedule) AtTest w
     = if mainloop w =? 0 then poll_loop P schedule AtSleep w
       else (Ret tt, w)) /\
  (forall schedule w,
     poll_loop P (Run :: schedule) AtSleep w
     = poll_loop P schedule AtTest (emit (Call_sleep 1) w)) /\
  (forall sig schedule pc w,
     handler_installed P sig = true ->
     mainloop w = 0 ->
     let r := poll_loop P (Deliver sig :: schedule) pc w in
     r = poll_loop P schedule pc
           (set_mainloop 1
              (emit (Call_nc_verb_verbose "Signal %d received." (log_sinks P w))
                 w)) /\
     mainloop (snd r) = 1 /\
     (sleeps (snd r) <= sleeps w + sleeps_left pc)%nat /\
     ((steps_left pc <= runs schedule)%nat ->
      fst r = Ret tt \/ fst r = Exit (EXIT_FAILURE P)
      \/ exists sig', fst r = Killed sig') /\
     (forall n,
        schedule = repeat Run n -> (steps_left pc <= n)%nat ->
        fst r = Ret tt)) /\
  (forall schedule pc w,
     poll_loop P (Deliver (SIGKILL P) :: schedule) pc w
     = (Killed (SIGKILL P), w)).
Proof.
  split; [| split; [| split ] ].
  - intros schedule w. cbn [poll_loop]. unfold bind, get_mainloop.
    destruct (mainloop w =? 0); reflexivity.
  - reflexivity.
  - intros sig schedule pc w Hinst H0. cbn zeta.
    set (w1 := set_mainloop 1 _).
    assert (Hstep : poll_loop P (Deliver sig :: schedule) pc w
                    = poll_loop P schedule pc w1).
    { cbn [poll_loop]. unfold bind.
      destruct (deliver_cases P sig w) as [[_ ->] | [[Hno _] | [Hno _]]];
        try congruence.
      rewrite signal_handler_run. cbn zeta.
      rewrite (handler_installed_termination P sig Hinst), H0.
      reflexivity. }
    rewrite Hstep. split; [ reflexivity |].
    assert (Hset : mainloop w1 <> 0) by (cbn; discriminate).
    destruct (poll_loop_flag_set P schedule pc w1 Hset) as (Hm & Hs & Ht).
    split; [ rewrite Hm; reflexivity |].
    split; [| split; [ exact Ht |] ].
    + assert (Hw1 : sleeps w1 = sleeps w).
      { unfold w1, sleeps. cbn [set_mainloop emit trace].
        rewrite filter_app, length_app. cbn. lia. }
      lia.
    + intros n -> Hn. now apply poll_loop_undisturbed.
  - intros schedule pc w. cbn [poll_loop]. unfold bind, deliver, handler_installed.
    rewrite Z.eqb_refl. reflexivity.
Qed.

Lemma poll_loop_exits_after_signal_witness :
  let r := poll_loop linux [Deliver 15; Run; Run] AtSleep (start "/") in
  mainloop (snd r) = 1 /\ (sleeps (snd r) <= 1)%nat /\ fst r = Ret tt.
Proof.
  cbn zeta.
  destruct (proj1 (proj2 (proj2 (poll_loop_exits_after_signal linux)))
              15 [Run; Run] AtSleep (start "/") eq_refl eq_refl)
    as (_ & Hflag & Hs & _ & Hquiet).
  split; [ exact Hflag |].
  split; [ exact Hs | apply (Hquiet 2%nat); [ reflexivity | cbn; lia ] ].
Defined.

(* ================================================================== *)
(** ** Options and verbosity *)

Lemma verbosity_calls_app tr1 tr2 :
  verbosity_calls (tr1 ++ tr2) = verbosity_calls tr1 ++ verbosity_calls tr2.
Proof.
  induction tr1 as [|e tr1 IH]; [ reflexivity |].
  cbn [app verbosity_calls]. rewrite IH.
  destruct (verbosity_level e); reflexivity.
Qed.

Lemma verbosity_calls_late P w post :
  Forall (late P w) post -> verbosity_calls post = [].
Proof.
  induction 1 as [|e post [He _] _ IH]; [ reflexivity |].
  cbn [verbosity_calls]. rewrite IH.
  destruct e; try discriminate He; reflexivity.
Qed.

Lemma verbosity_calls_background P options :
  verbosity_calls (background_calls P options) = [].
Proof.
  unfold background_calls. destruct (existsb (is_flag "f") options); reflexivity.
Qed.

(** When the option loop ends, [main] makes the calls of the prelude and
    no other call of [nc_verbosity]. *)
Lemma main_prelude P argv0 getenv options lib schedule dir :
  forallb goes_on options = true ->
  exists post,
    trace (snd (main P argv0 getenv options lib schedule (start dir)))
    = prelude_calls P
        (normalized P (verbose_of P options (env_verbose P getenv)))
      ++ post
    /\ verbosity_calls post = [].
Proof.
  intros Hall.
  set (w0 := emits
               (prelude_calls P
                  (normalized P (verbose_of P options (env_verbose P getenv))))
               (start dir)).
  assert (Hgo : existsb (is_flag "f") options = true \/ daemon_result lib = 0 ->
                exists post,
                  trace (snd (main P argv0 getenv options lib schedule (start dir)))
                  = trace w0 ++ post /\ verbosity_calls post = []).
  { intros Hbg. rewrite main_bootstraps by assumption. fold w0.
    destruct (bootstrap_frame P lib schedule (backgrounded P options w0))
      as [_ (post & Htr & Hpost)].
    exists (background_calls P options ++ post).
    rewrite Htr, trace_backgrounded, <- app_assoc.
    split; [ reflexivity |].
    rewrite verbosity_calls_app, verbosity_calls_background.
    apply (verbosity_calls_late _ _ _ Hpost). }
  unfold w0 in Hgo. rewrite trace_emits in Hgo. cbn [start trace app] in Hgo.
  destruct (existsb (is_flag "f") options) eqn:Hf; [ apply Hgo; now left |].
  destruct (Z.eq_dec (daemon_result lib) 0) as [Hd | Hd];
    [ apply Hgo; now right |].
  rewrite main_daemon_fails by assumption.
  eexists. cbn [snd]. rewrite trace_emits. split; reflexivity.
Qed.

Lemma verbose_of_no_flag P options :
  existsb (is_flag "v") options = false ->
  forall verbose, verbose_of P options verbose = verbose.
Proof.
  induction options as [|o rest IH]; intros Hv verbose; [ reflexivity |].
  cbn [existsb] in Hv. apply orb_false_iff in Hv as [Ho Hrest].
  cbn [verbose_of]. rewrite Ho. now apply IH.
Qed.

Lemma verbose_of_app P before after verbose :
  verbose_of P (before ++ after) verbose
  = verbose_of P after (verbose_of P before verbose).
Proof.
  revert verbose. induction before as [|o rest IH]; intros verbose.
  - reflexivity.
  - cbn [app verbose_of]. apply IH.
Qed.

Lemma verbose_of_last P before o after verbose :
  is_flag "v" o = true ->
  existsb (is_flag "v") after = false ->
  verbose_of P (before ++ o :: after) verbose = atoi P (optarg o).
Proof.
  intros Ho Hafter. rewrite verbose_of_app. cbn [verbose_of]. rewrite Ho.
  now apply verbose_of_no_flag.
Qed.

(** With a [-v] among the options the value of [verbose] before the loop
    does not matter. *)
Lemma parse_options_overrides P argv0 options :
  existsb (is_flag "v") options = true ->
  forall daemonize verbose verbose' w,
    parse_options P argv0 options daemonize verbose w
    = parse_options P argv0 options daemonize verbose' w.
Proof.
  induction options as [|o rest IH]; intros Hv daemonize verbose verbose' w.
  - discriminate.
  - cbn [parse_options].
    fold (is_flag "f" o). fold (is_flag "h" o). fold (is_flag "v" o).
    cbn [existsb] in Hv.
    destruct (is_flag "f" o) eqn:Ef.
    + apply IH. destruct (is_flag "v" o) eqn:Ev; [| exact Hv ].
      apply is_flag_eq in Ef. apply is_flag_eq in Ev. congruence.
    + destruct (is_flag "h" o); [ reflexivity |].
      destruct (is_flag "v" o); [ reflexivity |].
      reflexivity.
Qed.

(** C4. Whatever the options, every level that [main] passes to
    [nc_verbosity] lies between [NC_VERB_ERROR] and [NC_VERB_DEBUG]; and
    when the options are [-f] and [-v] flags only, [main] passes exactly
    one level, the value that the flags and the environment give, brought
    into that range. *)
Theorem verbosity_clamped P argv0 getenv options lib schedule dir :
  NC_VERB_ERROR P <= NC_VERB_DEBUG P ->
  let r := main P argv0 getenv options lib schedule (start dir) in
  (forall level,
     In level (verbosity_calls (trace (snd r))) ->
     NC_VERB_ERROR P <= level <= NC_VERB_DEBUG P) /\
  (forallb goes_on options = true ->
   verbosity_calls (trace (snd r))
   = [clamp P (verbose_of P options (env_verbose P getenv))]).
Proof.
  intros Hrange r. subst r.
  destruct (forallb goes_on options) eqn:Hall.
  - destruct (main_prelude P argv0 getenv options lib schedule dir Hall)
      as (post & Htr & Hpost).
    rewrite Htr, verbosity_calls_app, Hpost, normalized_clamp by assumption.
    cbn. split; [| reflexivity ].
    intros level [<- | []]. now apply clamp_in_range.
  - rewrite main_usage by assumption. cbn. split; [ tauto | discriminate ].
Qed.

Lemma verbosity_clamped_witness :
  verbosity_calls
    (trace
       (snd
          (main linux "ofc-server" no_environment [flag_v "77"; flag_f]
             all_succeed [Deliver 15; Run] (start "/"))))
  = [3]
  /\ 0 <= 3 <= 3.
Proof.
  pose proof (verbosity_clamped linux "ofc-server" no_environment
                [flag_v "77"; flag_f] all_succeed [Deliver 15; Run] "/"
                ltac:(cbn; lia)) as [Hrange Hcalls].
  split.
  - apply Hcalls. reflexivity.
  - apply Hrange. rewrite (Hcalls eq_refl). left. reflexivity.
Defined.

(** C8. Without a [-v] flag (and with [-f] flags at most, so that [main]
    gets as far as [nc_verbosity]), whatever the environment variable
    holds, [main] passes one level to [nc_verbosity]: [NC_VERB_ERROR] when
    the variable is unset and otherwise [atoi] of its value, brought into
    the range from [NC_VERB_ERROR] to [NC_VERB_DEBUG]. *)
Theorem environment_verbosity_clamped P argv0 getenv options lib schedule dir :
  NC_VERB_ERROR P <= NC_VERB_DEBUG P ->
  forallb goes_on options = true ->
  existsb (is_flag "v") options = false ->
  let level :=
    clamp P
      match getenv (ENVIRONMENT_VERBOSE P) with
      | None => NC_VERB_ERROR P
      | Some value => atoi P value
      end in
  verbosity_calls
    (trace (snd (main P argv0 getenv options lib schedule (start dir))))
  = [level]
  /\ NC_VERB_ERROR P <= level <= NC_VERB_DEBUG P.
Proof.
  intros Hrange Hall Hv level.
  destruct (main_prelude P argv0 getenv options lib schedule dir Hall)
    as (post & Htr & Hpost).
  rewrite Htr, verbosity_calls_app, Hpost, normalized_clamp by assumption.
  rewrite verbose_of_no_flag by assumption.
  split; [ reflexivity | now apply clamp_in_range ].
Qed.

Lemma environment_verbosity_clamped_witness :
  verbosity_calls
    (trace
       (snd
          (main linux "ofc-server"
             (fun name => if String.eqb name "VERBOSE" then Some "-40 dB" else None)
             [flag_f] all_succeed [Deliver 15; Run] (start "/"))))
  = [0]
  /\ 0 <= 0 <= 3.
Proof.
  apply (environment_verbosity_clamped linux "ofc-server"
           (fun name => if String.eqb name "VERBOSE" then Some "-40 dB" else None)
           [flag_f] all_succeed [Deliver 15; Run] "/").
  - cbn. lia.
  - reflexivity.
  - reflexivity.
Defined.

(** C10. With a [-v] among the options the run of [main] is the same
    under every environment.  When the options are [-f] and [-v] flags and
    [o] is the last [-v], the option loop ends with [verbose] equal to
    [atoi] of the argument of [o], and that value, normalised, is the one
    level passed to [nc_verbosity]. *)
Theorem flag_overrides_environment P argv0 lib schedule :
  (forall options getenv getenv' w,
     existsb (is_flag "v") options = true ->
     main P argv0 getenv options lib schedule w
     = main P argv0 getenv' options lib schedule w) /\
  (forall before o after,
     forallb goes_on (before ++ o :: after) = true ->
     is_flag "v" o = true ->
     existsb (is_flag "v") after = false ->
     (forall daemonize verbose w,
        exists daemonize',
          parse_options P argv0 (before ++ o :: after) daemonize verbose w
          = (Ret (daemonize', atoi P (optarg o)), w)) /\
     (forall getenv dir,
        verbosity_calls
          (trace
             (snd
                (main P argv0 getenv (before ++ o :: after) lib schedule
                   (start dir))))
        = [normalized P (atoi P (optarg o))])).
Proof.
  split.
  - intros options getenv getenv' w Hv.
    pose proof (parse_options_overrides P argv0 options Hv 1
                  (env_verbose P getenv) (env_verbose P getenv') w) as Hsame.
    unfold env_verbose in Hsame. unfold main. cbv zeta. unfold bind.
    rewrite Hsame. reflexivity.
  - intros before o after Hall Ho Hafter. split.
    + intros daemonize verbose w. eexists.
      rewrite parse_options_goes_on by assumption.
      rewrite verbose_of_last by assumption. reflexivity.
    + intros getenv dir.
      destruct (main_prelude P argv0 getenv (before ++ o :: after) lib
                  schedule dir Hall) as (post & Htr & Hpost).
      rewrite Htr, verbosity_calls_app, Hpost.
      rewrite verbose_of_last by assumption. reflexivity.
Qed.

Lemma flag_overrides_environment_witness :
  main linux "ofc-server" (fun _ => Some "1") [flag_v "3"; flag_f; flag_v "2"]
    all_succeed [Deliver 15; Run] (start "/")
  = main linux "ofc-server" no_environment [flag_v "3"; flag_f; flag_v "2"]
      all_succeed [Deliver 15; Run] (start "/")
  /\ verbosity_calls
       (trace
          (snd
             (main linux "ofc-server"
                (fun _ => Some "1") [flag_v "3"; flag_f; flag_v "2"]
                all_succeed [Deliver 15; Run] (start "/"))))
     = [2].
Proof.
  pose proof (flag_overrides_environment linux "ofc-server" all_succeed
                [Deliver 15; Run]) as [Hsame Hlast].
  split.
  - apply Hsame. reflexivity.
  - apply (proj2 (Hlast [flag_v "3"; flag_f] (flag_v "2") []
                    eq_refl eq_refl eq_refl)).
Defined.

(** C6. With [-h] (or [--help]) among the options, [main] prints the usage
    text on standard output and ends with [exit(0)]; the usage text is all
    that the process has done by then, so neither [nc_init] nor any later
    step of the bootstrap has run. *)
Theorem help_exits_before_bootstrap P argv0 getenv options lib schedule dir :
  existsb (is_flag "h") options = true ->
  let r := main P argv0 getenv options lib schedule (start dir) in
  fst r = Exit 0 /\
  trace (snd r) = usage_text argv0 /\
  Forall (fun e => late_event e = false) (trace (snd r)).
Proof.
  intros Hh r. subst r.
  rewrite main_usage by (now apply help_stops).
  cbn [fst snd]. rewrite trace_emits. cbn [start trace app].
  split; [ reflexivity |]. split; [ reflexivity |].
  repeat constructor.
Qed.

Lemma help_exits_before_bootstrap_witness :
  let r := main linux "ofc-server" no_environment
             [flag_f; flag_v "2"; flag_h; flag_f] daemon_fails [] (start "/") in
  fst r = Exit 0 /\
  trace (snd r) = usage_text "ofc-server" /\
  Forall (fun e => late_event e = false) (trace (snd r)).
Proof.
  apply (help_exits_before_bootstrap linux "ofc-server" no_environment
           [flag_f; flag_v "2"; flag_h; flag_f] daemon_fails [] "/").
  reflexivity.
Defined.

(* ================================================================== *)
(** ** The bootstrap sequence *)

(** The trace of a run that gets to the bootstrap, up to there. *)
Lemma trace_before_bootstrap P options level dir :
  trace (backgrounded P options (emits (prelude_calls P level) (start dir)))
  = prelude_calls P level ++ background_calls P options.
Proof. rewrite trace_backgrounded, trace_emits. reflexivity. Qed.

Lemma first_failure_construct lib :
  ncds_new_transapi_static_result lib = 0 ->
  first_failure lib = Some Construct_datastore.
Proof.
  intros Hnew. unfold first_failure, find, step_fails. now rewrite Hnew.
Qed.

(** The poll loop followed by the cleanup adds sleeps, messages and the
    call of [nc_close]. *)
Lemma poll_cleanup_frame P schedule retval w :
  exists post,
    trace (snd ((poll_loop P schedule AtTest ;; cleanup retval) w))
    = trace w ++ post
    /\ Forall (fun e => poll_event e = true \/ e = Call_nc_close) post.
Proof.
  unfold bind.
  destruct (poll_loop_frame P schedule AtTest w) as [_ (post & Htr & Hpost)].
  assert (Hpoll : Forall (fun e => poll_event e = true \/ e = Call_nc_close) post).
  { eapply Forall_impl; [| exact Hpost ]. intros e [He _]. now left. }
  destruct (poll_loop P schedule AtTest w) as [[[]| status | sig |] w2];
    cbn [snd] in Htr |- *.
  - exists (post ++ [Call_nc_close]).
    unfold cleanup, bind, nc_close, call, ret. cbn [snd emit trace].
    rewrite Htr, <- app_assoc. split; [ reflexivity |].
    apply Forall_app. split; [ exact Hpoll |].
    constructor; [ now right | constructor ].
  - exists post. split; assumption.
  - exists post. split; assumption.
  - exists post. split; assumption.
Qed.

(** C5. When [ncds_new_transapi_static] returns [NULL], [main] logs
    "Creating ietf-netconf-server datastore failed.", calls [nc_close] and
    returns [EXIT_FAILURE]; [ncds_init], [ncds_consolidate] and
    [ncds_device_init] are never called. *)
Theorem construction_failure_skips_the_rest
    P argv0 getenv options lib schedule dir :
  forallb goes_on options = true ->
  existsb (is_flag "f") options = true \/ daemon_result lib = 0 ->
  0 <= nc_init_result lib ->
  ncds_new_transapi_static_result lib = 0 ->
  let r := main P argv0 getenv options lib schedule (start dir) in
  fst r = Ret (EXIT_FAILURE P) /\
  (exists before sinks,
     trace (snd r)
     = before
       ++ [ Call_ncds_new_transapi_static (NCDS_TYPE_FILE P) netconf_server_yin;
            Call_nc_verb_error "Creating ietf-netconf-server datastore failed."
              sinks;
            Call_nc_close ]) /\
  Forall
    (fun e =>
       step_call Initialize_datastore e = false /\
       step_call Consolidate e = false /\
       step_call Activate e = false)
    (trace (snd r)).
Proof.
  intros Hall Hbg Hinit Hnew r. subst r.
  rewrite main_bootstraps by assumption.
  rewrite bootstrap_run.
  apply Z.ltb_ge in Hinit. rewrite Hinit.
  rewrite (first_failure_construct lib Hnew).
  cbn [fst snd]. rewrite trace_emits, trace_before_bootstrap.
  split; [ reflexivity |]. split.
  - exists (prelude_calls P
              (normalized P (verbose_of P options (env_verbose P getenv)))
            ++ background_calls P options ++ init_calls P
            ++ [Call_ncds_add_model cert_to_name_yin]).
    eexists. rewrite <- !app_assoc. reflexivity.
  - unfold background_calls.
    destruct (existsb (is_flag "f") options); repeat constructor.
Qed.

Lemma construction_failure_skips_the_rest_witness :
  let r := main linux "ofc-server" no_environment [flag_f]
             construction_fails [Deliver 15; Run] (start "/") in
  fst r = Ret 1 /\
  Forall
    (fun e =>
       step_call Initialize_datastore e = false /\
       step_call Consolidate e = false /\
       step_call Activate e = false)
    (trace (snd r)).
Proof.
  destruct (construction_failure_skips_the_rest linux "ofc-server"
              no_environment [flag_f] construction_fails [Deliver 15; Run] "/"
              eq_refl (or_introl eq_refl) ltac:(cbn; lia) eq_refl)
    as (Hstatus & _ & Hskipped).
  split; [ exact Hstatus | exact Hskipped ].
Defined.

Lemma no_add_model_in_poll post :
  Forall (fun e => poll_event e = true \/ e = Call_nc_close) post ->
  filter is_add_model post = [].
Proof.
  induction 1 as [|e post He _ IH]; [ reflexivity |].
  cbn [filter]. rewrite IH.
  destruct He as [He | ->]; [| reflexivity ].
  destruct e; try discriminate He; reflexivity.
Qed.

(** The bootstrap once the datastore is there: the second registration
    of the model follows [ncds_file_set_path], and no other follows. *)
Lemma bootstrap_constructed P lib schedule w :
  (nc_init_result lib <? 0) = false ->
  (ncds_new_transapi_static_result lib =? 0) = false ->
  exists after,
    trace (snd (bootstrap P lib schedule w))
    = trace w ++ init_calls P ++ construct_calls P
      ++ [ Call_ncds_file_set_path (ncds_new_transapi_static_result lib)
             datastore_xml;
           Call_ncds_add_model cert_to_name_yin ]
      ++ after
    /\ filter is_add_model after = [].
Proof.
  intros Hinit Hnew. rewrite bootstrap_run, Hinit.
  unfold first_failure, find, step_fails. rewrite Hnew.
  destruct (ncds_init_result lib <? 0);
    [| destruct (ncds_consolidate_result lib =? 0);
       [ destruct (ncds_device_init_result lib =? 0) |] ];
    cbn [negb snd].
  - exists (skipn 2 (configure_calls lib)
            ++ [ Call_nc_verb_error (step_message Initialize_datastore)
                   (log_sinks P w);
                 Call_nc_close ]).
    rewrite trace_emits. split; reflexivity.
  - destruct (poll_cleanup_frame P schedule (EXIT_SUCCESS P)
                (emits
                   (calls_through P lib Activate
                    ++ [Call_nc_verb_verbose
                          "OF-CONFIG server successfully initialized."
                          (log_sinks P w)])
                   w)) as (post & Htr & Hpost).
    exists (skipn 2 (configure_calls lib) ++ consolidate_calls
            ++ activate_calls lib
            ++ [Call_nc_verb_verbose
                  "OF-CONFIG server successfully initialized."
                  (log_sinks P w)]
            ++ post).
    rewrite Htr, trace_emits. split.
    + rewrite <- app_assoc. f_equal.
    + rewrite !filter_app. rewrite (no_add_model_in_poll post Hpost).
      reflexivity.
  - exists (skipn 2 (configure_calls lib) ++ consolidate_calls
            ++ activate_calls lib
            ++ [ Call_nc_verb_error (step_message Activate) (log_sinks P w);
                 Call_nc_close ]).
    rewrite trace_emits. split; reflexivity.
  - exists (skipn 2 (configure_calls lib) ++ consolidate_calls
            ++ [ Call_nc_verb_error (step_message Consolidate) (log_sinks P w);
                 Call_nc_close ]).
    rewrite trace_emits. split; reflexivity.
Qed.

Lemma no_add_model_before_bootstrap P options level :
  filter is_add_model (prelude_calls P level ++ background_calls P options)
  = [].
Proof.
  unfold background_calls.
  destruct (existsb (is_flag "f") options); reflexivity.
Qed.

(** In no run is the model registered more than twice or under another
    path. *)
Lemma add_model_calls P argv0 getenv options lib schedule dir :
  exists n,
    (n <= 2)%nat /\
    filter is_add_model
      (trace (snd (main P argv0 getenv options lib schedule (start dir))))
    = repeat (Call_ncds_add_model cert_to_name_yin) n.
Proof.
  destruct (forallb goes_on options) eqn:Hall;
    [| exists 0%nat; rewrite main_usage by assumption;
       split; [ lia | reflexivity ] ].
  assert (Hfails : existsb (is_flag "f") options = false ->
                   daemon_result lib <> 0 ->
                   filter is_add_model
                     (trace
                        (snd (main P argv0 getenv options lib schedule
                                (start dir))))
                   = []).
  { intros Hf Hd. rewrite main_daemon_fails by assumption. cbn [snd].
    rewrite trace_emits. reflexivity. }
  destruct (existsb (is_flag "f") options) eqn:Hf;
    [| destruct (Z.eq_dec (daemon_result lib) 0) as [Hd | Hd];
       [| exists 0%nat; split; [ lia | now apply Hfails ] ] ].
  all: clear Hfails;
    rewrite main_bootstraps by (rewrite ?Hf; tauto);
    set (w0 := backgrounded P options _);
    assert (Hw0 : filter is_add_model (trace w0) = [])
      by (unfold w0; rewrite trace_before_bootstrap;
          apply no_add_model_before_bootstrap);
    destruct (nc_init_result lib <? 0) eqn:Hinit;
    [ exists 0%nat; rewrite bootstrap_run, Hinit; cbn [snd];
      rewrite trace_emits, filter_app, Hw0; split; [ lia | reflexivity ]
    | destruct (ncds_new_transapi_static_result lib =? 0) eqn:Hnew;
      [ exists 1%nat; rewrite bootstrap_run, Hinit;
        apply Z.eqb_eq in Hnew; rewrite (first_failure_construct lib Hnew);
        cbn [snd]; rewrite trace_emits, filter_app, Hw0;
        split; [ lia | reflexivity ]
      | exists 2%nat;
        destruct (bootstrap_constructed P lib schedule w0 Hinit Hnew)
          as (after & Htr & Hafter);
        rewrite Htr, !filter_app, Hw0, Hafter;
        split; [ lia | reflexivity ] ] ].
Qed.

(** C9. In a run that gets past the construction of the datastore,
    [ncds_add_model] is called exactly twice, both times with the path of
    [ietf-x509-cert-to-name.yin]: once right before
    [ncds_new_transapi_static] and once right after [ncds_file_set_path].
    In no run is it called more often or with another path.  Whatever the
    calls return, the run of [main] is the same. *)
Theorem model_registered_twice P argv0 getenv options lib schedule :
  (forall dir,
     forallb goes_on options = true ->
     existsb (is_flag "f") options = true \/ daemon_result lib = 0 ->
     0 <= nc_init_result lib ->
     ncds_new_transapi_static_result lib <> 0 ->
     exists before after,
       trace (snd (main P argv0 getenv options lib schedule (start dir)))
       = before
         ++ [ Call_ncds_add_model cert_to_name_yin;
              Call_ncds_new_transapi_static (NCDS_TYPE_FILE P)
                netconf_server_yin;
              Call_ncds_file_set_path (ncds_new_transapi_static_result lib)
                datastore_xml;
              Call_ncds_add_model cert_to_name_yin ]
         ++ after
       /\ filter is_add_model before = []
       /\ filter is_add_model after = []) /\
  (forall dir,
     exists n,
       (n <= 2)%nat /\
       filter is_add_model
         (trace (snd (main P argv0 getenv options lib schedule (start dir))))
       = repeat (Call_ncds_add_model cert_to_name_yin) n) /\
  (forall add_model w,
     main P argv0 getenv options
       (with_unchecked_results add_model (ncds_file_set_path_result lib)
          (ncds_feature_enable_result lib) lib)
       schedule w
     = main P argv0 getenv options lib schedule w).
Proof.
  split; [| split ].
  - intros dir Hall Hbg Hinit Hnew.
    rewrite main_bootstraps by assumption.
    apply Z.ltb_ge in Hinit. apply Z.eqb_neq in Hnew.
    destruct (bootstrap_constructed P lib schedule
                (backgrounded P options
                   (emits
                      (prelude_calls P
                         (normalized P
                            (verbose_of P options (env_verbose P getenv))))
                      (start dir)))
                Hinit Hnew) as (after & Htr & Hafter).
    rewrite Htr, trace_before_bootstrap.
    exists (prelude_calls P
              (normalized P (verbose_of P options (env_verbose P getenv)))
            ++ background_calls P options ++ init_calls P), after.
    split; [| split ].
    + cbn [construct_calls]. rewrite <- !app_assoc. reflexivity.
    + rewrite !filter_app. unfold background_calls.
      destruct (existsb (is_flag "f") options); reflexivity.
    + exact Hafter.
  - intros dir. apply add_model_calls.
  - intros add_model w. reflexivity.
Qed.

Lemma model_registered_twice_witness :
  List.length
    (filter is_add_model
       (trace
          (snd
             (main linux "ofc-server" no_environment [flag_f] unchecked_fail
                [Deliver 15; Run] (start "/")))))
  = 2%nat.
Proof.
  destruct (proj1 (model_registered_twice linux "ofc-server" no_environment
                     [flag_f] unchecked_fail [Deliver 15; Run])
              "/" eq_refl (or_introl eq_refl) ltac:(cbn; lia)
              ltac:(cbn; discriminate))
    as (before & after & Htr & Hbefore & Hafter).
  rewrite Htr, !filter_app, Hbefore, Hafter. reflexivity.
Defined.

Lemma first_failure_is lib s :
  step_fails lib s = true ->
  (forall s', In s' (steps_before s) -> step_fails lib s' = false) ->
  first_failure lib = Some s.
Proof.
  intros Hs Hbefore. unfold first_failure.
  destruct s; cbn [steps_before In] in Hbefore; cbn [find];
    rewrite ?(Hbefore Construct_datastore), ?(Hbefore Initialize_datastore),
      ?(Hbefore Consolidate) by tauto;
    rewrite Hs; reflexivity.
Qed.

(** C1, as the code has it. In a run that gets to the bootstrap:
    when [nc_init] fails, [main] logs an error and returns [EXIT_FAILURE]
    at once, without [nc_close]; when one of the steps whose result is
    tested (construct the datastore, initialise it, consolidate, activate)
    is the first to fail, [main] logs the error of that step, calls
    [nc_close] and returns [EXIT_FAILURE], the failing call being the only
    call of that step and no later step being called; the results of
    [ncds_add_model], [ncds_file_set_path] and [ncds_feature_enable] have
    no effect on the run. *)
Theorem bootstrap_failure_handling P argv0 getenv options lib schedule dir :
  EXIT_FAILURE P <> 0 ->
  forallb goes_on options = true ->
  existsb (is_flag "f") options = true \/ daemon_result lib = 0 ->
  let r := main P argv0 getenv options lib schedule (start dir) in
  (nc_init_result lib < 0 ->
   exit_status (fst r) = Some (EXIT_FAILURE P) /\
   exit_status (fst r) <> Some 0 /\
   exists before sinks,
     trace (snd r)
     = before
       ++ [ Call_nc_init (Z.lor (NC_INIT_ALL P) (NC_INIT_MULTILAYER P));
            Call_nc_verb_error "libnetconf initialization failed." sinks ]
     /\ Forall (fun e => late_event e = false) before) /\
  (forall s,
     0 <= nc_init_result lib ->
     step_fails lib s = true ->
     (forall s', In s' (steps_before s) -> step_fails lib s' = false) ->
     exit_status (fst r) = Some (EXIT_FAILURE P) /\
     exit_status (fst r) <> Some 0 /\
     exists before failing sinks,
       trace (snd r)
       = before
         ++ [ failing;
              Call_nc_verb_error (step_message s) sinks;
              Call_nc_close ]
       /\ step_call s failing = true
       /\ Forall
            (fun e =>
               is_error_log e = false /\
               is_nc_close e = false /\
               existsb (fun s' => step_call s' e) (steps_from s) = false)
            before) /\
  (forall add_model file_set_path feature_enable w,
     main P argv0 getenv options
       (with_unchecked_results add_model file_set_path feature_enable lib)
       schedule w
     = main P argv0 getenv options lib schedule w).
Proof.
  intros Hfailure Hall Hbg r. subst r.
  assert (Hnonzero : Some (EXIT_FAILURE P) <> Some 0) by congruence.
  rewrite main_bootstraps by assumption.
  rewrite bootstrap_run.
  set (level := normalized P (verbose_of P options (env_verbose P getenv))).
  split; [| split ].
  - intros Hinit. apply Z.ltb_lt in Hinit. rewrite Hinit. cbn [fst snd].
    split; [ reflexivity |]. split; [ exact Hnonzero |].
    exists (prelude_calls P level ++ background_calls P options). eexists.
    rewrite trace_emits, trace_before_bootstrap. split; [ reflexivity |].
    unfold background_calls.
    destruct (existsb (is_flag "f") options); repeat constructor.
  - intros s Hinit Hs Hbefore. apply Z.ltb_ge in Hinit. rewrite Hinit.
    rewrite (first_failure_is lib s Hs Hbefore). cbn [fst snd].
    split; [ reflexivity |]. split; [ exact Hnonzero |].
    rewrite trace_emits, trace_before_bootstrap.
    exists (prelude_calls P level ++ background_calls P options
            ++ removelast (calls_through P lib s)).
    exists (last (calls_through P lib s) Call_nc_close). eexists.
    split; [| split ].
    + rewrite <- !app_assoc. destruct s; reflexivity.
    + destruct s; reflexivity.
    + unfold background_calls.
      destruct s, (existsb (is_flag "f") options); repeat constructor.
  - intros add_model file_set_path feature_enable w. reflexivity.
Qed.

Lemma bootstrap_failure_handling_witness :
  exit_status
    (fst
       (main linux "ofc-server" no_environment [flag_f] nc_init_fails
          [Deliver 15; Run] (start "/")))
  = Some 1
  /\ let r := main linux "ofc-server" no_environment [flag_f]
                consolidation_fails [Deliver 15; Run] (start "/") in
     exit_status (fst r) = Some 1 /\
     exists before sinks,
       trace (snd r)
       = before
         ++ [ Call_ncds_consolidate;
              Call_nc_verb_error "Consoidating data models failed." sinks;
              Call_nc_close ].
Proof.
  split.
  - apply (proj1 (bootstrap_failure_handling linux "ofc-server"
                    no_environment [flag_f] nc_init_fails
                    [Deliver 15; Run] "/"
                    ltac:(cbn; discriminate) eq_refl (or_introl eq_refl))).
    cbn. lia.
  - destruct (proj1 (proj2 (bootstrap_failure_handling linux "ofc-server"
                              no_environment [flag_f] consolidation_fails
                              [Deliver 15; Run] "/"
                              ltac:(cbn; discriminate) eq_refl
                              (or_introl eq_refl)))
                Consolidate ltac:(cbn; lia) eq_refl
                ltac:(cbn; intros s' [<- | [<- | []]]; reflexivity))
      as (Hstatus & _ & before & failing & sinks & Htr & Hcall & _).
    split; [ exact Hstatus |].
    exists before, sinks. rewrite Htr.
    destruct failing; try discriminate Hcall. reflexivity.
Defined.

(** C1 as stated fails twice.  When [nc_init] fails, [main] returns
    [EXIT_FAILURE] without calling [nc_close].  When the registration of
    the model, the setting of the path and the enabling of the features
    all fail, [main] logs no error and, stopped by a signal, returns
    [EXIT_SUCCESS]. *)
Lemma bootstrap_failure_counterexample :
  (let r := main linux "ofc-server" no_environment [flag_f] nc_init_fails
              [Deliver 15; Run] (start "/") in
   exit_status (fst r) = Some 1 /\
   existsb is_nc_close (trace (snd r)) = false) /\
  (let r := main linux "ofc-server" no_environment [flag_f] unchecked_fail
              [Deliver 15; Run] (start "/") in
   exit_status (fst r) = Some 0 /\
   existsb is_error_log (trace (snd r)) = false).
Proof. vm_compute. repeat split. Qed.

(* ================================================================== *)
(** ** Daemonisation *)

Lemma land_lor_same a b : Z.land (Z.lor a b) b = b.
Proof.
  apply Z.bits_inj'. intros n _. rewrite Z.land_spec, Z.lor_spec.
  destruct (Z.testbit a n), (Z.testbit b n); reflexivity.
Qed.

Lemma log_sinks_logging P option w :
  log_sinks P (logging P option w)
  = if Z.land option (LOG_PERROR P) =? 0 then [Syslog] else [Syslog; Stderr].
Proof. reflexivity. Qed.

Lemma late_logged_to P w sinks post :
  log_sinks P w = sinks -> Forall (late P w) post ->
  Forall (logged_to sinks) post.
Proof.
  intros <- Hpost. eapply Forall_impl; [| exact Hpost ]. now intros e [_ He].
Qed.

Lemma late_no_daemon P w post :
  Forall (late P w) post -> existsb is_daemon_call post = false.
Proof.
  induction 1 as [|e post [He _] _ IH]; [ reflexivity |].
  cbn [existsb]. rewrite IH.
  destruct e; try discriminate He; reflexivity.
Qed.

(** C3, as the code has it. The working directory does not stay: with
    daemonisation enabled [main] calls [daemon(0, 0)], after which the
    process has no controlling terminal, its working directory is the
    root directory and its standard streams are on [/dev/null]; the log is
    then opened without [LOG_PERROR] and every later message goes to
    syslog only.  With daemonisation disabled [daemon] is not called, the
    process stays as it was, and every message after [openlog] goes to
    syslog and to standard error.  When [daemon] fails, [main] logs an
    error and returns [EXIT_FAILURE] at once, after that single call. *)
Theorem daemonization P argv0 getenv options lib schedule dir :
  LOG_PERROR P <> 0 ->
  Z.land (LOG_PID P) (LOG_PERROR P) = 0 ->
  forallb goes_on options = true ->
  let r := main P argv0 getenv options lib schedule (start dir) in
  (existsb (is_flag "f") options = false ->
   daemon_result lib = 0 ->
   ctty (snd r) = false /\
   cwd (snd r) = "/" /\
   stdio_devnull (snd r) = true /\
   exists before after,
     trace (snd r)
     = before
       ++ [ Call_daemon 0 0;
            Call_openlog "netopeer-server" (LOG_PID P) (LOG_DAEMON P) ]
       ++ after
     /\ existsb is_daemon_call (before ++ after) = false
     /\ Forall (logged_to [Syslog]) after) /\
  (existsb (is_flag "f") options = true ->
   ctty (snd r) = true /\
   cwd (snd r) = dir /\
   stdio_devnull (snd r) = false /\
   existsb is_daemon_call (trace (snd r)) = false /\
   exists before after,
     trace (snd r)
     = before
       ++ [ Call_openlog "netopeer-server"
              (Z.lor (LOG_PID P) (LOG_PERROR P)) (LOG_DAEMON P) ]
       ++ after
     /\ Forall (logged_to [Syslog; Stderr]) after) /\
  (existsb (is_flag "f") options = false ->
   daemon_result lib <> 0 ->
   fst r = Ret (EXIT_FAILURE P) /\
   ctty (snd r) = true /\
   cwd (snd r) = dir /\
   exists before sinks,
     trace (snd r)
     = before
       ++ [ Call_daemon 0 0;
            Call_nc_verb_error "Going to background failed (%s)" sinks ]
     /\ existsb is_daemon_call before = false).
Proof.
  intros Hperror Hpid Hall r. subst r.
  set (level := normalized P (verbose_of P options (env_verbose P getenv))).
  set (w0 := emits (prelude_calls P level) (start dir)).
  split; [| split ].
  - intros Hf Hd. rewrite main_bootstraps by (assumption || now right).
    fold level. fold w0. unfold backgrounded. rewrite Hf.
    set (w1 := logging P (LOG_PID P) (daemonized w0)).
    destruct (bootstrap_frame P lib schedule w1)
      as [(Hcwd & Hctty & Hstd & _) (after & Htr & Hafter)].
    rewrite Hcwd, Hctty, Hstd.
    split; [ reflexivity |]. split; [ reflexivity |]. split; [ reflexivity |].
    exists (prelude_calls P level), after. split; [| split ].
    + rewrite Htr. unfold w1, w0. cbn [logging set_logopt emit daemonized trace].
      rewrite trace_emits, <- !app_assoc. reflexivity.
    + rewrite existsb_app, (late_no_daemon P w1 after Hafter). reflexivity.
    + apply (late_logged_to P w1); [| exact Hafter ].
      unfold w1. rewrite log_sinks_logging, Hpid. reflexivity.
  - intros Hf. rewrite main_bootstraps by (assumption || now left).
    fold level. fold w0. unfold backgrounded. rewrite Hf.
    set (w1 := logging P (Z.lor (LOG_PID P) (LOG_PERROR P)) w0).
    destruct (bootstrap_frame P lib schedule w1)
      as [(Hcwd & Hctty & Hstd & _) (after & Htr & Hafter)].
    rewrite Hcwd, Hctty, Hstd.
    split; [ reflexivity |]. split; [ reflexivity |]. split; [ reflexivity |].
    assert (Htrace : trace (snd (bootstrap P lib schedule w1))
                     = prelude_calls P level
                       ++ [ Call_openlog "netopeer-server"
                              (Z.lor (LOG_PID P) (LOG_PERROR P)) (LOG_DAEMON P) ]
                       ++ after).
    { rewrite Htr. unfold w1, w0. cbn [logging set_logopt emit trace].
      rewrite trace_emits, <- !app_assoc. reflexivity. }
    split.
    + rewrite Htrace, !existsb_app, (late_no_daemon P w1 after Hafter).
      reflexivity.
    + exists (prelude_calls P level), after. split; [ exact Htrace |].
      apply (late_logged_to P w1); [| exact Hafter ].
      unfold w1. rewrite log_sinks_logging, land_lor_same.
      apply Z.eqb_neq in Hperror. rewrite Hperror. reflexivity.
  - intros Hf Hd. rewrite main_daemon_fails by assumption. cbn [fst snd].
    fold level.
    split; [ reflexivity |].
    pose proof (same_process_emits
                  (prelude_calls P level
                   ++ [ Call_daemon 0 0;
                        Call_nc_verb_error "Going to background failed (%s)"
                          (log_sinks P (start dir)) ])
                  (start dir)) as (Hcwd & Hctty & _).
    rewrite Hcwd, Hctty.
    split; [ reflexivity |]. split; [ reflexivity |].
    exists (prelude_calls P level). eexists.
    rewrite trace_emits. split; reflexivity.
Qed.

Lemma daemonization_witness :
  (let r := main linux "ofc-server" no_environment [flag_v "2"] all_succeed
              [Deliver 15; Run] (start "/home/ofc") in
   ctty (snd r) = false /\ cwd (snd r) = "/" /\ stdio_devnull (snd r) = true) /\
  (let r := main linux "ofc-server" no_environment [flag_f] all_succeed
              [Deliver 15; Run] (start "/home/ofc") in
   ctty (snd r) = true /\ cwd (snd r) = "/home/ofc") /\
  (let r := main linux "ofc-server" no_environment [] daemon_fails
              [Deliver 15; Run] (start "/home/ofc") in
   fst r = Ret 1).
Proof.
  split; [| split ].
  - destruct (proj1 (daemonization linux "ofc-server" no_environment
                       [flag_v "2"] all_succeed [Deliver 15; Run] "/home/ofc"
                       ltac:(cbn; discriminate) eq_refl eq_refl)
                eq_refl eq_refl)
      as (Hctty & Hcwd & Hstd & _).
    repeat split; assumption.
  - destruct (proj1 (proj2 (daemonization linux "ofc-server" no_environment
                              [flag_f] all_succeed [Deliver 15; Run]
                              "/home/ofc"
                              ltac:(cbn; discriminate) eq_refl eq_refl))
                eq_refl)
      as (Hctty & Hcwd & _).
    split; assumption.
  - apply (proj2 (proj2 (daemonization linux "ofc-server" no_environment
                           [] daemon_fails [Deliver 15; Run] "/home/ofc"
                           ltac:(cbn; discriminate) eq_refl eq_refl))
             eq_refl ltac:(cbn; discriminate)).
Defined.

(** C3 as stated fails: after a successful [daemon(0, 0)] the working
    directory of the process is no longer the one it started in. *)
Lemma daemon_changes_directory_counterexample :
  let r := main linux "ofc-server" no_environment [] all_succeed
             [Deliver 15; Run] (start "/home/ofc") in
  In (Call_daemon 0 0) (trace (snd r)) /\
  ctty (snd r) = false /\
  cwd (snd r) = "/" /\
  cwd (snd r) <> cwd (start "/home/ofc").
Proof.
  vm_compute. split; [ tauto |]. split; [ reflexivity |].
  split; [ reflexivity | discriminate ].
Qed.

(* ================================================================== *)
(** ** Further properties of the poll loop and the handler *)

Lemma emits_cons e es w : emits (e :: es) w = emits es (emit e w).
Proof. reflexivity. Qed.

(** Without a signal the loop goes on for ever, one sleep every other
    step. *)
Lemma poll_loop_alone P n :
  forall pc w,
    mainloop w = 0 ->
    poll_loop P (repeat Run n) pc w
    = (Polling,
       emits (repeat (Call_sleep 1) (Nat.div (n + sleeps_left pc) 2)) w).
Proof.
  induction n as [|n IH]; intros pc w H0.
  - destruct pc; reflexivity.
  - cbn [repeat poll_loop].
    destruct pc; unfold bind, get_mainloop, sleep, call; cbn [sleeps_left].
    + rewrite H0. cbn [Z.eqb]. rewrite (IH AtSleep w H0). cbn [sleeps_left].
      replace (S n + 0)%nat with (n + 1)%nat by lia. reflexivity.
    + rewrite (IH AtTest (emit (Call_sleep 1) w) H0). cbn [sleeps_left].
      replace (Nat.div (S n + 1) 2) with (S (Nat.div (n + 0) 2)).
      * reflexivity.
      * replace (S n + 1)%nat with (n + 0 + 1 * 2)%nat by lia.
        rewrite Nat.div_add by lia. lia.
Qed.

(** X4. As long as no signal is delivered and the flag is 0 the poll loop
    does not end: after any number [n] of steps of the main thread it is
    still polling, the flag is still 0, and all it has done is [n / 2]
    calls of [sleep(1)]. *)
Theorem poll_loop_runs_until_signalled P n w :
  mainloop w = 0 ->
  let r := poll_loop P (repeat Run n) AtTest w in
  fst r = Polling /\
  mainloop (snd r) = 0 /\
  trace (snd r) = trace w ++ repeat (Call_sleep 1) (Nat.div n 2).
Proof.
  intros H0 r. subst r. rewrite (poll_loop_alone P n AtTest w H0).
  cbn [fst snd sleeps_left]. rewrite Nat.add_0_r.
  split; [ reflexivity |]. split.
  - generalize (repeat (Call_sleep 1) (Nat.div n 2)). intros es.
    revert w H0. induction es as [|e es IH]; intros w H0; [ exact H0 |].
    rewrite emits_cons. now apply IH.
  - apply trace_emits.
Qed.

Lemma poll_loop_runs_until_signalled_witness :
  let r := poll_loop linux (repeat Run 5) AtTest (start "/") in
  fst r = Polling /\
  mainloop (snd r) = 0 /\
  trace (snd r) = [Call_sleep 1; Call_sleep 1].
Proof.
  apply (poll_loop_runs_until_signalled linux 5 (start "/")). reflexivity.
Defined.

(** X5. The flag only ever goes from 0 to 1.  Whenever [signal_handler]
    returns, the flag was 0 and is now 1; and whatever the schedule, the
    poll loop leaves the flag as it was or takes it from 0 to 1, and when
    it is left the flag is not 0. *)
Theorem flag_is_set_once P :
  (forall sig w,
     fst (signal_handler P sig w) = Ret tt ->
     mainloop w = 0 /\ mainloop (snd (signal_handler P sig w)) = 1) /\
  (forall schedule pc w,
     let r := poll_loop P schedule pc w in
     (mainloop (snd r) = mainloop w \/
      mainloop w = 0 /\ mainloop (snd r) = 1) /\
     (fst r = Ret tt -> mainloop (snd r) <> 0)).
Proof.
  split.
  - intros sig w. rewrite signal_handler_run. cbn zeta.
    destruct (termination_signal P sig); [| discriminate ].
    destruct (mainloop w =? 0) eqn:E; [| discriminate ].
    intros _. apply Z.eqb_eq in E. split; [ exact E | reflexivity ].
  - intros schedule. induction schedule as [|t rest IH]; intros pc w; cbn zeta.
    + cbn [poll_loop fst snd]. split; [ now left | discriminate ].
    + destruct t as [|sig]; cbn [poll_loop].
      * destruct pc; unfold bind, get_mainloop, sleep, call, ret.
        -- destruct (mainloop w =? 0) eqn:E; [ apply IH |].
           cbn [fst snd]. apply Z.eqb_neq in E.
           split; [ now left | intros _; exact E ].
        -- apply (IH AtTest (emit (Call_sleep 1) w)).
      * unfold bind.
        destruct (deliver_cases P sig w) as [[_ ->] | [[_ ->] | [_ ->]]];
          [| apply IH | cbn [fst snd]; split; [ now left | discriminate ] ].
        rewrite signal_handler_run. cbn zeta.
        destruct (termination_signal P sig);
          [ destruct (mainloop w =? 0) eqn:E |];
          try (cbn [fst snd]; split; [ now left | discriminate ]).
        apply Z.eqb_eq in E.
        set (w1 := set_mainloop 1 _).
        destruct (IH pc w1) as [Hflag Hleft].
        split; [| exact Hleft ].
        right. split; [ exact E |].
        destruct Hflag as [Hsame | [Hzero _]]; [ exact Hsame |].
        discriminate Hzero.
Qed.

Lemma flag_is_set_once_witness :
  mainloop (snd (signal_handler linux 2 (start "/"))) = 1.
Proof.
  apply (proj1 (flag_is_set_once linux) 2 (start "/")). reflexivity.
Defined.

(* ================================================================== *)
(** ** Further properties of the option loop *)

Lemma forallb_goes_on_stop before o after :
  goes_on o = false -> forallb goes_on (before ++ o :: after) = false.
Proof.
  intros Ho. rewrite forallb_app. cbn [forallb]. rewrite Ho.
  apply andb_false_r.
Qed.

(** X1. An option that is neither [-f] nor [-v] (an unrecognised one as
    well as [-h]) is no failure: [main] prints the usage text and ends
    with [exit(0)], having done nothing else.  The options after it, the
    environment and the library play no part. *)
Theorem unrecognised_option_prints_usage
    P argv0 getenv lib schedule before o after w :
  is_flag "f" o = false ->
  is_flag "v" o = false ->
  main P argv0 getenv (before ++ o :: after) lib schedule w
  = (Exit 0, emits (usage_text argv0) w).
Proof.
  intros Hf Hv. apply main_usage. apply forallb_goes_on_stop.
  unfold goes_on. now rewrite Hf, Hv.
Qed.

Lemma unrecognised_option_prints_usage_witness :
  let r := main linux "ofc-server" no_environment
             [flag_f; flag_unknown; flag_v "3"] nc_init_fails [] (start "/") in
  fst r = Exit 0 /\ trace (snd r) = usage_text "ofc-server".
Proof.
  cbn zeta.
  pose proof (unrecognised_option_prints_usage linux "ofc-server"
                no_environment nc_init_fails [] [flag_f] flag_unknown
                [flag_v "3"] (start "/") eq_refl eq_refl) as Hrun.
  cbn [app] in Hrun. rewrite Hrun. split; reflexivity.
Defined.

Lemma no_prelude_call_late P w post :
  Forall (late P w) post -> forallb (fun e => negb (is_prelude_call e)) post = true.
Proof.
  induction 1 as [|e post [He _] _ IH]; [ reflexivity |].
  cbn [forallb]. rewrite IH.
  destruct e; try discriminate He; reflexivity.
Qed.

(** X2. Every run that gets past the option loop begins with the same
    seven calls: [sigaction] for SIGINT, SIGQUIT, SIGABRT, SIGTERM and
    SIGKILL in this order, [nc_callback_print], and [nc_verbosity] with
    the normalised level.  None of these calls is made again, whether the
    process then goes to the background or not and whether that and the
    bootstrap succeed or not. *)
Theorem handlers_are_installed_first
    P argv0 getenv options lib schedule dir :
  forallb goes_on options = true ->
  exists level rest,
    trace (snd (main P argv0 getenv options lib schedule (start dir)))
    = [ Call_sigaction (SIGINT P);
        Call_sigaction (SIGQUIT P);
        Call_sigaction (SIGABRT P);
        Call_sigaction (SIGTERM P);
        Call_sigaction (SIGKILL P);
        Call_nc_callback_print;
        Call_nc_verbosity level ]
      ++ rest
    /\ forallb (fun e => negb (is_prelude_call e)) rest = true.
Proof.
  intros Hall.
  exists (normalized P (verbose_of P options (env_verbose P getenv))).
  destruct (existsb (is_flag "f") options) eqn:Hf;
    [| destruct (Z.eq_dec (daemon_result lib) 0) as [Hd | Hd] ].
  3: { rewrite main_daemon_fails by assumption. cbn [snd].
       rewrite trace_emits. eexists. split; reflexivity. }
  all: rewrite main_bootstraps by (rewrite ?Hf; tauto);
    fold (bootstrap_start P getenv options dir);
    destruct (bootstrap_frame P lib schedule
                (bootstrap_start P getenv options dir))
      as [_ (post & Htr & Hpost)];
    exists (background_calls P options ++ post);
    rewrite Htr; unfold bootstrap_start;
    rewrite trace_before_bootstrap, <- app_assoc;
    (split; [ reflexivity |]);
    rewrite forallb_app, (no_prelude_call_late _ _ _ Hpost);
    unfold background_calls; rewrite Hf; reflexivity.
Qed.

Lemma handlers_are_installed_first_witness :
  exists level rest,
    trace
      (snd
         (main linux "ofc-server" no_environment [] daemon_fails []
            (start "/")))
    = [ Call_sigaction 2; Call_sigaction 3; Call_sigaction 6;
        Call_sigaction 15; Call_sigaction 9;
        Call_nc_callback_print; Call_nc_verbosity level ]
      ++ rest
    /\ forallb (fun e => negb (is_prelude_call e)) rest = true.
Proof.
  apply (handlers_are_installed_first linux "ofc-server" no_environment []
           daemon_fails [] "/").
  reflexivity.
Defined.

(** X9. A level inside the range goes to [nc_verbosity] as it is: when
    the options are [-f] and [-v] flags and [atoi] of the argument of the
    last [-v] lies between [NC_VERB_ERROR] and [NC_VERB_DEBUG], that
    number is the one level passed; and normalising twice is the same as
    normalising once. *)
Theorem valid_level_is_kept P argv0 getenv lib schedule dir before o after :
  forallb goes_on (before ++ o :: after) = true ->
  is_flag "v" o = true ->
  existsb (is_flag "v") after = false ->
  NC_VERB_ERROR P <= atoi P (optarg o) <= NC_VERB_DEBUG P ->
  verbosity_calls
    (trace
       (snd
          (main P argv0 getenv (before ++ o :: after) lib schedule
             (start dir))))
  = [atoi P (optarg o)]
  /\ forall verbose,
       normalized P (normalized P verbose) = normalized P verbose.
Proof.
  intros Hall Ho Hafter Hrange. split.
  - destruct (main_prelude P argv0 getenv (before ++ o :: after) lib schedule
                dir Hall) as (post & Htr & Hpost).
    rewrite Htr, verbosity_calls_app, Hpost.
    rewrite verbose_of_last by assumption.
    rewrite normalized_clamp by lia. unfold clamp. cbn. f_equal. lia.
  - intros verbose. rewrite !normalized_clamp by lia. unfold clamp. lia.
Qed.

Lemma valid_level_is_kept_witness :
  verbosity_calls
    (trace
       (snd
          (main linux "ofc-server" no_environment [flag_v "9"; flag_v "1"]
             all_succeed [] (start "/"))))
  = [1].
Proof.
  apply (proj1 (valid_level_is_kept linux "ofc-server" no_environment
                  all_succeed [] "/" [flag_v "9"] (flag_v "1") []
                  eq_refl eq_refl eq_refl ltac:(cbn; lia))).
Defined.

Lemma existsb_flag_moved c before o after :
  existsb (is_flag c) (before ++ o :: after)
  = existsb (is_flag c) (o :: before ++ after).
Proof.
  rewrite existsb_app. cbn [existsb]. rewrite existsb_app.
  destruct (is_flag c o), (existsb (is_flag c) before); reflexivity.
Qed.

Lemma verbose_of_skip P o options verbose :
  is_flag "v" o = false ->
  verbose_of P (o :: options) verbose = verbose_of P options verbose.
Proof. intros Hv. cbn [verbose_of]. now rewrite Hv. Qed.

(** X10. Among [-f] and [-v] flags, where a [-f] stands and how often it
    is given makes no difference: moving a [-f] to the front, or giving
    it once more, leaves the run of [main] the same. *)
Theorem foreground_flag_commutes
    P argv0 getenv lib schedule w before o after :
  forallb goes_on (before ++ o :: after) = true ->
  is_flag "f" o = true ->
  main P argv0 getenv (before ++ o :: after) lib schedule w
  = main P argv0 getenv (o :: before ++ after) lib schedule w
  /\ main P argv0 getenv (o :: before ++ o :: after) lib schedule w
     = main P argv0 getenv (before ++ o :: after) lib schedule w.
Proof.
  intros Hall Hf.
  assert (Hv : is_flag "v" o = false).
  { apply is_flag_eq in Hf. unfold is_flag. rewrite Hf. reflexivity. }
  assert (Ho : goes_on o = true) by (unfold goes_on; now rewrite Hf).
  assert (Hmoved : forallb goes_on (o :: before ++ after) = true).
  { rewrite forallb_app in Hall. cbn [forallb] in Hall |- *.
    rewrite forallb_app.
    destruct (forallb goes_on before), (goes_on o), (forallb goes_on after);
      try discriminate Hall; reflexivity. }
  assert (Htwice : forallb goes_on (o :: before ++ o :: after) = true).
  { cbn [forallb]. now rewrite Ho, Hall. }
  rewrite !main_goes_on by assumption.
  unfold daemonize_of.
  rewrite (existsb_flag_moved "f" before o after).
  rewrite !verbose_of_skip by assumption.
  rewrite !verbose_of_app, !verbose_of_skip by assumption.
  cbn [existsb]. rewrite Hf. cbn [orb]. split; reflexivity.
Qed.

Lemma foreground_flag_commutes_witness :
  main linux "ofc-server" no_environment [flag_v "2"; flag_f] all_succeed
    [Deliver 15; Run] (start "/")
  = main linux "ofc-server" no_environment [flag_f; flag_v "2"] all_succeed
      [Deliver 15; Run] (start "/").
Proof.
  apply (proj1 (foreground_flag_commutes linux "ofc-server" no_environment
                  all_succeed [Deliver 15; Run] (start "/")
                  [flag_v "2"] flag_f [] eq_refl eq_refl)).
Defined.

(* ================================================================== *)
(** ** Whole runs *)

Lemma mainloop_emits es : forall w, mainloop (emits es w) = mainloop w.
Proof.
  induction es as [|e es IH]; intros w; [ reflexivity |].
  rewrite emits_cons. now rewrite IH.
Qed.

Lemma last_default_irrelevant {A} (a : A) l d d' :
  last (a :: l) d = last (a :: l) d'.
Proof.
  revert a. induction l as [|b l IH]; intros a; [ reflexivity |].
  change (last (b :: l) d = last (b :: l) d'). apply IH.
Qed.

Lemma last_app_default {A} (l post : list A) d :
  last (l ++ post) d = last post (last l d).
Proof.
  induction l as [|a l IH]; [ reflexivity |].
  destruct l as [|b l].
  - destruct post as [|p post]; [ reflexivity |].
    change (last (p :: post) d = last (p :: post) a).
    apply last_default_irrelevant.
  - change (last ((b :: l) ++ post) d = last post (last (b :: l) d)).
    exact IH.
Qed.

Lemma poll_events_observed post :
  forallb poll_event post = true ->
  closes post = 0%nat /\
  existsb is_nc_init post = false /\
  filter bootstrap_call post = [] /\
  forall e, is_nc_close e = false -> is_nc_close (last post e) = false.
Proof.
  induction post as [|p post IH]; intros Hpost.
  - repeat split. intros e He. exact He.
  - cbn [forallb] in Hpost. apply andb_true_iff in Hpost as [Hp Hrest].
    destruct (IH Hrest) as (Hc & Hi & Hb & Hl).
    assert (Hp' : is_nc_close p = false /\ is_nc_init p = false
                  /\ bootstrap_call p = false)
      by (destruct p; try discriminate Hp; repeat split).
    destruct Hp' as (Hpc & Hpi & Hpb).
    split; [| split; [| split ] ].
    + unfold closes in Hc |- *. cbn [filter]. now rewrite Hpc.
    + cbn [existsb]. now rewrite Hpi, Hi.
    + cbn [filter]. now rewrite Hpb.
    + intros e He. destruct post as [|q post]; [ exact Hpc |].
      change (is_nc_close (last (q :: post) e) = false). now apply Hl.
Qed.

(** How the poll loop ends, and what it has added to the trace by then:
    sleeps and messages, with one error message exactly when the handler
    has ended the process. *)
Lemma poll_loop_outcome P schedule :
  forall pc w,
    let r := poll_loop P schedule pc w in
    exists post,
      trace (snd r) = trace w ++ post
      /\ forallb poll_event post = true
      /\ errors post = exits (fst r)
      /\ (forall status, fst r = Exit status -> status = EXIT_FAILURE P)
      /\ (fst r = Ret tt -> mainloop (snd r) <> 0)
      /\ (mainloop (snd r) = mainloop w
          \/ mainloop w = 0 /\ mainloop (snd r) = 1).
Proof.
  induction schedule as [|t rest IH]; intros pc w; cbn zeta.
  - exists []. cbn [poll_loop fst snd]. rewrite app_nil_r.
    repeat split; try discriminate. now left.
  - destruct t as [|sig]; cbn [poll_loop].
    + destruct pc; unfold bind, get_mainloop, sleep, call, ret.
      * destruct (mainloop w =? 0) eqn:E; [ apply IH |].
        exists []. cbn [fst snd]. rewrite app_nil_r. apply Z.eqb_neq in E.
        repeat split; try discriminate; [ intros _; exact E | now left ].
      * destruct (IH AtTest (emit (Call_sleep 1) w))
          as (post & Htr & Hpoll & Herr & Hexit & Hret & Hflag).
        exists (Call_sleep 1 :: post). rewrite Htr. cbn [emit trace].
        rewrite <- app_assoc. repeat split; assumption.
    + unfold bind.
      destruct (deliver_cases P sig w) as [[_ ->] | [[_ ->] | [_ ->]]].
      * rewrite signal_handler_run. cbn zeta.
        destruct (termination_signal P sig);
          [ destruct (mainloop w =? 0) eqn:E |].
        -- set (w1 := set_mainloop 1 _).
           destruct (IH pc w1)
             as (post & Htr & Hpoll & Herr & Hexit & Hret & Hflag).
           exists (Call_nc_verb_verbose "Signal %d received." (log_sinks P w)
                   :: post).
           rewrite Htr. unfold w1. cbn [set_mainloop emit trace].
           rewrite <- app_assoc. repeat split; try assumption.
           right. apply Z.eqb_eq in E. split; [ exact E |].
           destruct Hflag as [Hsame | [Hzero _]]; [ exact Hsame |].
           discriminate Hzero.
        -- eexists [_; _]. cbn [fst snd emit trace]. rewrite <- app_assoc.
           repeat split; try reflexivity; try discriminate;
             [ intros status [= <-]; reflexivity | now left ].
        -- eexists [_; _]. cbn [fst snd emit trace]. rewrite <- app_assoc.
           repeat split; try reflexivity; try discriminate;
             [ intros status [= <-]; reflexivity | now left ].
      * apply IH.
      * exists []. cbn [fst snd]. rewrite app_nil_r.
        repeat split; try discriminate. now left.
Qed.

(** The poll loop and the cleanup together. *)
Lemma poll_cleanup_outcome P schedule retval w :
  let r := (poll_loop P schedule AtTest ;; cleanup retval) w in
  exists post,
    forallb poll_event post = true /\
    (fst r = Ret retval /\ mainloop (snd r) <> 0 /\
     (mainloop (snd r) = mainloop w \/
      mainloop w = 0 /\ mainloop (snd r) = 1) /\
     trace (snd r) = trace w ++ post ++ [Call_nc_close] /\
     errors post = 0%nat
     \/ fst r = Exit (EXIT_FAILURE P) /\
        trace (snd r) = trace w ++ post /\ errors post = 1%nat
     \/ (exists sig, fst r = Killed sig) /\
        trace (snd r) = trace w ++ post /\ errors post = 0%nat
     \/ fst r = Polling /\
        trace (snd r) = trace w ++ post /\ errors post = 0%nat).
Proof.
  cbn zeta. unfold bind.
  destruct (poll_loop_outcome P schedule AtTest w)
    as (post & Htr & Hpoll & Herr & Hexit & Hret & Hflag).
  exists post. split; [ exact Hpoll |].
  destruct (poll_loop P schedule AtTest w) as [[[]| status | sig |] w2];
    cbn [fst snd exits] in *.
  - left. unfold cleanup, bind, nc_close, call, ret. cbn [fst snd emit trace].
    rewrite Htr, <- app_assoc.
    repeat split; try assumption; try reflexivity. now apply Hret.
  - right. left. rewrite (Hexit status eq_refl). repeat split; assumption.
  - right. right. left. split; [ now exists sig |]. split; assumption.
  - right. right. right. repeat split; assumption.
Qed.

Lemma errors_app tr1 tr2 : errors (tr1 ++ tr2) = (errors tr1 + errors tr2)%nat.
Proof. unfold errors. now rewrite filter_app, length_app. Qed.

Lemma closes_app tr1 tr2 : closes (tr1 ++ tr2) = (closes tr1 + closes tr2)%nat.
Proof. unfold closes. now rewrite filter_app, length_app. Qed.

Lemma ends_with_close_app tr e es :
  ends_with_close (tr ++ e :: es) = ends_with_close (e :: es).
Proof.
  unfold ends_with_close. rewrite last_app_default. f_equal.
  apply last_default_irrelevant.
Qed.

Lemma trace_bootstrap_start P getenv options dir :
  trace (bootstrap_start P getenv options dir)
  = trace_at_bootstrap P getenv options.
Proof. apply trace_before_bootstrap. Qed.

Lemma trace_at_bootstrap_observed P getenv options :
  errors (trace_at_bootstrap P getenv options) = 0%nat /\
  closes (trace_at_bootstrap P getenv options) = 0%nat /\
  existsb is_nc_init (trace_at_bootstrap P getenv options) = false /\
  existsb is_ready (trace_at_bootstrap P getenv options) = false /\
  filter bootstrap_call (trace_at_bootstrap P getenv options) = [].
Proof.
  unfold trace_at_bootstrap, background_calls.
  destruct (existsb (is_flag "f") options); repeat split.
Qed.

Lemma mainloop_bootstrap_start P getenv options dir :
  mainloop (bootstrap_start P getenv options dir) = 0.
Proof.
  unfold bootstrap_start, backgrounded.
  destruct (existsb (is_flag "f") options);
    cbn [logging set_logopt emit daemonized mainloop];
    now rewrite mainloop_emits.
Qed.

(** The trace of a run in which the bootstrap is done. *)
Lemma bootstrapped_trace P argv0 getenv options lib schedule dir :
  forallb goes_on options = true ->
  existsb (is_flag "f") options = true \/ daemon_result lib = 0 ->
  0 <= nc_init_result lib ->
  first_failure lib = None ->
  exists sinks post,
    trace (snd (main P argv0 getenv options lib schedule (start dir)))
    = trace_at_bootstrap P getenv options
      ++ calls_through P lib Activate
      ++ [Call_nc_verb_verbose "OF-CONFIG server successfully initialized."
            sinks]
      ++ post
    /\ Forall (fun e => poll_event e = true \/ e = Call_nc_close) post.
Proof.
  intros Hall Hbg Hinit Hnone.
  rewrite main_bootstraps by assumption.
  fold (bootstrap_start P getenv options dir).
  rewrite bootstrap_run. apply Z.ltb_ge in Hinit. rewrite Hinit, Hnone.
  set (w0 := bootstrap_start P getenv options dir).
  set (w1 := emits _ w0).
  destruct (poll_cleanup_frame P schedule (EXIT_SUCCESS P) w1)
    as (post & Htr & Hpost).
  exists (log_sinks P w0), post. split; [| exact Hpost ].
  rewrite Htr. unfold w1. rewrite trace_emits. unfold w0.
  rewrite trace_bootstrap_start, <- !app_assoc. reflexivity.
Qed.

(** The ways a run of [main] can look from outside: the usage text and
    [exit(0)]; a failed [daemon]; a failed [nc_init]; a failed step
    followed by the cleanup; and, with the bootstrap done, the return
    after the cleanup, the [exit] in the signal handler, the end by a
    signal without handler, or a loop that still polls. *)
Lemma main_observed P argv0 getenv options lib schedule dir :
  let r := main P argv0 getenv options lib schedule (start dir) in
  let EF := EXIT_FAILURE P in
  let stays := existsb (is_flag "f") options in
  forallb goes_on options = false /\
  observation r = (Exit 0, 0, 0, false, false, false)%nat
  \/ forallb goes_on options = true /\
     (stays = false /\ daemon_result lib <> 0 /\
      observation r = (Ret EF, 1, 0, false, false, false)%nat
      \/ (stays = true \/ daemon_result lib = 0) /\
         (nc_init_result lib < 0 /\
          observation r = (Ret EF, 1, 0, true, false, false)%nat
          \/ 0 <= nc_init_result lib /\
             (first_failure lib <> None /\
              observation r = (Ret EF, 1, 1, true, true, false)%nat
              \/ first_failure lib = None /\
                 (observation r
                  = (Ret (EXIT_SUCCESS P), 0, 1, true, true, true)%nat /\
                  mainloop (snd r) = 1
                  \/ observation r = (Exit EF, 1, 0, true, false, true)%nat
                  \/ (exists sig,
                        observation r
                        = (Killed sig, 0, 0, true, false, true)%nat)
                  \/ observation r
                     = (Polling, 0, 0, true, false, true)%nat)))).
Proof.
  cbn zeta.
  destruct (forallb goes_on options) eqn:Hall.
  2: { left. split; [ reflexivity |].
       rewrite main_usage by assumption. reflexivity. }
  right. split; [ reflexivity |].
  assert (Hfails : existsb (is_flag "f") options = false ->
                   daemon_result lib <> 0 ->
                   observation
                     (main P argv0 getenv options lib schedule (start dir))
                   = (Ret (EXIT_FAILURE P), 1, 0, false, false, false)%nat).
  { intros Hf Hd. rewrite main_daemon_fails by assumption. reflexivity. }
  assert (Hgoes : existsb (is_flag "f") options = true \/ daemon_result lib = 0
                  \/ existsb (is_flag "f") options = false
                     /\ daemon_result lib <> 0).
  { destruct (existsb (is_flag "f") options); [ now left |].
    destruct (Z.eq_dec (daemon_result lib) 0); [ now right; left |].
    now right; right. }
  destruct Hgoes as [Hbg | [Hbg | [Hf Hd]]];
    [| | left; repeat split; try assumption; now apply Hfails ].
  all: clear Hfails; right;
    (split; [ tauto |]);
    rewrite main_bootstraps by tauto;
    fold (bootstrap_start P getenv options dir);
    rewrite bootstrap_run;
    pose proof (trace_bootstrap_start P getenv options dir) as Hw0;
    pose proof (mainloop_bootstrap_start P getenv options dir) as Hm0;
    destruct (trace_at_bootstrap_observed P getenv options)
      as (He0 & Hc0 & Hi0 & Hr0 & _);
    set (w0 := bootstrap_start P getenv options dir) in *;
    set (tr0 := trace_at_bootstrap P getenv options) in *;
    (destruct (nc_init_result lib <? 0) eqn:Hinit;
     [ left; apply Z.ltb_lt in Hinit; split; [ exact Hinit |];
       unfold observation; cbn [fst snd];
       rewrite trace_emits, Hw0; cbn [init_calls app];
       rewrite errors_app, closes_app, !existsb_app, ends_with_close_app,
         He0, Hc0, Hi0, Hr0;
       reflexivity
     | right; apply Z.ltb_ge in Hinit; split; [ exact Hinit |] ]).
  all: destruct (first_failure lib) as [s|];
    [ left; split; [ discriminate |];
      unfold observation; cbn [fst snd];
      rewrite trace_emits, Hw0;
      destruct s;
        cbn [calls_through init_calls construct_calls configure_calls
               consolidate_calls activate_calls step_message app];
        rewrite errors_app, closes_app, !existsb_app, ends_with_close_app,
          He0, Hc0, Hi0, Hr0;
        reflexivity
    | right; split; [ reflexivity |] ].
  all: set (w1 := emits _ w0);
    assert (Hw1 : trace w1
                  = tr0
                    ++ calls_through P lib Activate
                    ++ [Call_nc_verb_verbose
                          "OF-CONFIG server successfully initialized."
                          (log_sinks P w0)])
      by (unfold w1; rewrite trace_emits, Hw0; reflexivity);
    assert (Hm1 : mainloop w1 = 0)
      by (unfold w1; rewrite mainloop_emits; exact Hm0);
    destruct (poll_cleanup_outcome P schedule (EXIT_SUCCESS P) w1)
      as (post & Hpoll & Hend);
    destruct (poll_events_observed post Hpoll) as (Hpc & Hpi & _ & Hpl);
    unfold observation;
    destruct Hend as [(Hr & Hm & Hflag & Htr & Herr)
                     | [(Hr & Htr & Herr)
                       | [([sig Hr] & Htr & Herr) | (Hr & Htr & Herr)]]];
    [ left; split; [| destruct Hflag as [Hsame | [_ Hone]];
                      [ congruence | exact Hone ] ]
    | right; left
    | right; right; left; exists sig
    | right; right; right ];
    rewrite Hr, Htr, Hw1;
    cbn [calls_through init_calls construct_calls configure_calls
           consolidate_calls activate_calls app];
    rewrite ?errors_app, ?closes_app, ?existsb_app, He0, Hc0, Hi0, Hr0,
      Herr, Hpc, Hpi;
    unfold ends_with_close; rewrite !last_app_default;
    try rewrite Hpl by reflexivity;
    reflexivity.
Qed.

Lemma first_failure_none lib :
  first_failure lib = None <-> forall s, step_fails lib s = false.
Proof.
  unfold first_failure. cbn [find]. split.
  - intros Hnone s.
    destruct (step_fails lib Construct_datastore) eqn:H1;
      [ discriminate Hnone |].
    destruct (step_fails lib Initialize_datastore) eqn:H2;
      [ discriminate Hnone |].
    destruct (step_fails lib Consolidate) eqn:H3; [ discriminate Hnone |].
    destruct (step_fails lib Activate) eqn:H4; [ discriminate Hnone |].
    destruct s; assumption.
  - intros Hok. now rewrite !Hok.
Qed.

(** X3. A run in which [main] reports the bootstrap done ("OF-CONFIG
    server successfully initialized.") is a run in which [nc_init] and the
    four tested steps succeeded, and the calls of the bootstrap it has
    made are these ten, in this order: [nc_init], [ncds_add_model],
    [ncds_new_transapi_static], [ncds_file_set_path], [ncds_add_model],
    [ncds_feature_enable] for "ssh" and for "inbound-ssh", [ncds_init],
    [ncds_consolidate], [ncds_device_init].  The datastore that
    [ncds_new_transapi_static] returned is the one given to
    [ncds_file_set_path] and to [ncds_init], and the id that [ncds_init]
    returned is the one given to [ncds_device_init]. *)
Theorem ready_means_bootstrapped P argv0 getenv options lib schedule dir :
  let tr := trace (snd (main P argv0 getenv options lib schedule (start dir))) in
  existsb is_ready tr = true ->
  0 <= nc_init_result lib /\
  (forall s, step_fails lib s = false) /\
  filter bootstrap_call tr
  = [ Call_nc_init (Z.lor (NC_INIT_ALL P) (NC_INIT_MULTILAYER P));
      Call_ncds_add_model cert_to_name_yin;
      Call_ncds_new_transapi_static (NCDS_TYPE_FILE P) netconf_server_yin;
      Call_ncds_file_set_path (ncds_new_transapi_static_result lib)
        datastore_xml;
      Call_ncds_add_model cert_to_name_yin;
      Call_ncds_feature_enable "ietf-netconf-server" "ssh";
      Call_ncds_feature_enable "ietf-netconf-server" "inbound-ssh";
      Call_ncds_init (ncds_new_transapi_static_result lib);
      Call_ncds_consolidate;
      Call_ncds_device_init (ncds_init_result lib) 0 1 ].
Proof.
  cbn zeta. intros Hready.
  assert (Hcase : forallb goes_on options = true /\
                  (existsb (is_flag "f") options = true
                   \/ daemon_result lib = 0) /\
                  0 <= nc_init_result lib /\ first_failure lib = None).
  { destruct (main_observed P argv0 getenv options lib schedule dir)
      as [[_ Hobs]
         | [Hall [(_ & _ & Hobs)
                 | [Hbg [[_ Hobs]
                        | [Hpos [[_ Hobs] | [Hnone _]]]]]]]];
      try (unfold observation in Hobs; injection Hobs as _ _ _ _ _ Hr;
           congruence).
    repeat split; assumption. }
  destruct Hcase as (Hall & Hbg & Hpos & Hnone).
  split; [ exact Hpos |]. split; [ now apply first_failure_none |].
  destruct (bootstrapped_trace P argv0 getenv options lib schedule dir
              Hall Hbg Hpos Hnone) as (sinks & post & Htr & Hpost).
  rewrite Htr, !filter_app.
  destruct (trace_at_bootstrap_observed P getenv options)
    as (_ & _ & _ & _ & Hb0).
  rewrite Hb0.
  assert (Hbp : filter bootstrap_call post = []).
  { clear Htr. induction Hpost as [|e post He _ IH]; [ reflexivity |].
    cbn [filter]. rewrite IH.
    destruct He as [He | ->]; [| reflexivity ].
    destruct e; try discriminate He; reflexivity. }
  rewrite Hbp. reflexivity.
Qed.

Lemma ready_means_bootstrapped_witness :
  filter bootstrap_call
    (trace
       (snd
          (main linux "ofc-server" no_environment [flag_f] all_succeed
             [Deliver 15; Run] (start "/"))))
  = [ Call_nc_init 511;
      Call_ncds_add_model cert_to_name_yin;
      Call_ncds_new_transapi_static 2 netconf_server_yin;
      Call_ncds_file_set_path 4096 datastore_xml;
      Call_ncds_add_model cert_to_name_yin;
      Call_ncds_feature_enable "ietf-netconf-server" "ssh";
      Call_ncds_feature_enable "ietf-netconf-server" "inbound-ssh";
      Call_ncds_init 4096;
      Call_ncds_consolidate;
      Call_ncds_device_init 7 0 1 ].
Proof.
  apply (proj2 (proj2 (ready_means_bootstrapped linux "ofc-server"
                         no_environment [flag_f] all_succeed
                         [Deliver 15; Run] "/" eq_refl))).
Defined.

(** X6. [main] returns [EXIT_SUCCESS] only after a complete run: when it
    does, [nc_init] and the four tested steps have succeeded, the
    bootstrap was reported done, the flag is 1, no error was logged, and
    [nc_close] was called once, as the last call. *)
Theorem success_means_clean_shutdown P argv0 getenv options lib schedule dir :
  EXIT_FAILURE P <> EXIT_SUCCESS P ->
  let r := main P argv0 getenv options lib schedule (start dir) in
  let tr := trace (snd r) in
  fst r = Ret (EXIT_SUCCESS P) ->
  0 <= nc_init_result lib /\
  (forall s, step_fails lib s = false) /\
  existsb is_ready tr = true /\
  mainloop (snd r) = 1 /\
  errors tr = 0%nat /\
  closes tr = 1%nat /\
  ends_with_close tr = true.
Proof.
  intros Hsuccess. cbn zeta. intros Hret.
  destruct (main_observed P argv0 getenv options lib schedule dir)
    as [[_ Hobs]
       | [_ [(_ & _ & Hobs)
            | [_ [[_ Hobs]
                 | [Hpos [[_ Hobs]
                         | [Hnone [[Hobs Hm]
                                  | [Hobs | [[sig Hobs] | Hobs]]]]]]]]]]];
    unfold observation in Hobs;
    injection Hobs as Hr He Hc Hi Hl Hrd;
    rewrite Hret in Hr; try discriminate Hr;
    try (injection Hr as Hr; congruence).
  split; [ exact Hpos |]. split; [ now apply first_failure_none |].
  repeat split; assumption.
Qed.

Lemma success_means_clean_shutdown_witness :
  let r := main linux "ofc-server" no_environment [flag_f] all_succeed
             [Run; Deliver 15; Run; Run] (start "/") in
  mainloop (snd r) = 1 /\ closes (trace (snd r)) = 1%nat.
Proof.
  cbn zeta.
  destruct (success_means_clean_shutdown linux "ofc-server" no_environment
              [flag_f] all_succeed [Run; Deliver 15; Run; Run] "/"
              ltac:(cbn; discriminate) eq_refl)
    as (_ & _ & _ & Hm & _ & Hc & _).
  split; [ exact Hm | exact Hc ].
Defined.

(** X7. [nc_close] is called at most once, and only in a run in which
    [nc_init] was called and succeeded: never after the usage text, after
    a failed [daemon] or after a failed [nc_init].  Whenever [main]
    returns after a successful [nc_init], [nc_close] has been called. *)
Theorem nc_close_only_after_init P argv0 getenv options lib schedule dir :
  let r := main P argv0 getenv options lib schedule (start dir) in
  let tr := trace (snd r) in
  (closes tr <= 1)%nat /\
  (closes tr = 1%nat ->
   existsb is_nc_init tr = true /\ 0 <= nc_init_result lib) /\
  (returned (fst r) = true ->
   existsb is_nc_init tr = true ->
   0 <= nc_init_result lib ->
   closes tr = 1%nat).
Proof.
  cbn zeta.
  destruct (main_observed P argv0 getenv options lib schedule dir)
    as [[_ Hobs]
       | [_ [(_ & _ & Hobs)
            | [_ [[Hneg Hobs]
                 | [Hpos [[_ Hobs]
                         | [_ [[Hobs _]
                              | [Hobs | [[sig Hobs] | Hobs]]]]]]]]]]];
    unfold observation in Hobs;
    injection Hobs as Hr He Hc Hi Hl Hrd;
    rewrite Hr, Hc, Hi; cbn [returned];
    (split; [ lia |]);
    (split;
     [ intros H;
       first [ discriminate H | split; [ reflexivity | assumption ] ]
     | intros H1 H2 H3;
       first [ discriminate H1 | discriminate H2 | reflexivity | lia ] ]).
Qed.

Lemma nc_close_only_after_init_witness :
  closes
    (trace
       (snd
          (main linux "ofc-server" no_environment [flag_f]
             consolidation_fails [] (start "/"))))
  = 1%nat.
Proof.
  apply (proj2 (proj2 (nc_close_only_after_init linux "ofc-server"
                         no_environment [flag_f] consolidation_fails []
                         "/")));
    [ reflexivity | reflexivity | cbn; lia ].
Defined.

(** X8. Failure and error messages go together.  When the process ends
    by [exit] or by the return of [main], its status is [EXIT_FAILURE]
    exactly when an error message was logged, and is otherwise 0 or
    [EXIT_SUCCESS]. *)
Theorem failure_is_logged P argv0 getenv options lib schedule dir :
  EXIT_FAILURE P <> 0 ->
  EXIT_FAILURE P <> EXIT_SUCCESS P ->
  let r := main P argv0 getenv options lib schedule (start dir) in
  let tr := trace (snd r) in
  forall status,
    exit_status (fst r) = Some status ->
    (status = EXIT_FAILURE P <-> (1 <= errors tr)%nat) /\
    (status = 0 \/ status = EXIT_SUCCESS P \/ status = EXIT_FAILURE P).
Proof.
  intros Hzero Hsuccess. cbn zeta. intros status.
  destruct (main_observed P argv0 getenv options lib schedule dir)
    as [[_ Hobs]
       | [_ [(_ & _ & Hobs)
            | [_ [[Hneg Hobs]
                 | [Hpos [[_ Hobs]
                         | [_ [[Hobs _]
                              | [Hobs | [[sig Hobs] | Hobs]]]]]]]]]]];
    unfold observation in Hobs;
    injection Hobs as Hr He Hc Hi Hl Hrd;
    rewrite Hr, He; cbn [exit_status];
    intros H; try discriminate H; injection H as <-;
    (split; [ split; intros H; try reflexivity; try lia; congruence
            | tauto ]).
Qed.

Lemma failure_is_logged_witness :
  (1 <= errors
          (trace
             (snd
                (main linux "ofc-server" no_environment [flag_f]
                   consolidation_fails [] (start "/")))))%nat.
Proof.
  apply (proj1 (failure_is_logged linux "ofc-server" no_environment
                  [flag_f] consolidation_fails [] "/"
                  ltac:(cbn; discriminate) ltac:(cbn; discriminate)
                  1 eq_refl)).
  reflexivity.
Defined.

(* ================================================================== *)
(** ** What the verbosity does not change *)

Lemma log_sinks_logopt P w w' :
  logopt w' = logopt w -> log_sinks P w' = log_sinks P w.
Proof. intros Hl. unfold log_sinks. now rewrite Hl. Qed.

(** From two processes with the same flag and the same log options the
    poll loop ends the same way and adds the same events. *)
Lemma poll_loop_same_events P schedule :
  forall pc w w',
    mainloop w' = mainloop w ->
    logopt w' = logopt w ->
    exists post,
      fst (poll_loop P schedule pc w') = fst (poll_loop P schedule pc w)
      /\ trace (snd (poll_loop P schedule pc w)) = trace w ++ post
      /\ trace (snd (poll_loop P schedule pc w')) = trace w' ++ post.
Proof.
  induction schedule as [|t rest IH]; intros pc w w' Hm Hl.
  - exists []. cbn [poll_loop fst snd]. now rewrite !app_nil_r.
  - destruct t as [|sig]; cbn [poll_loop].
    + destruct pc; unfold bind, get_mainloop, sleep, call, ret.
      * rewrite Hm. destruct (mainloop w =? 0); [ now apply IH |].
        exists []. cbn [fst snd]. now rewrite !app_nil_r.
      * destruct (IH AtTest (emit (Call_sleep 1) w) (emit (Call_sleep 1) w')
                    Hm Hl) as (post & Hr & Htr & Htr').
        exists (Call_sleep 1 :: post). rewrite Hr, Htr, Htr'.
        cbn [emit trace]. rewrite <- !app_assoc. repeat split.
    + unfold bind.
      assert (Hsilent : exists post,
                fst (poll_loop P rest pc w') = fst (poll_loop P rest pc w)
                /\ trace (snd (poll_loop P rest pc w)) = trace w ++ post
                /\ trace (snd (poll_loop P rest pc w')) = trace w' ++ post)
        by now apply IH.
      unfold deliver. destruct (handler_installed P sig);
        [| destruct (negb (sig =? SIGKILL P)
                     && default_action_keeps_running P sig);
           [ exact Hsilent
           | exists []; cbn [fst snd]; now rewrite !app_nil_r ] ].
      clear Hsilent.
      rewrite !signal_handler_run. cbn zeta.
      rewrite Hm, (log_sinks_logopt P w w' Hl).
      destruct (termination_signal P sig);
        [ destruct (mainloop w =? 0) |].
      * match goal with
        | |- context [poll_loop P rest pc (set_mainloop 1 (emit ?e w))] =>
            destruct (IH pc (set_mainloop 1 (emit e w))
                        (set_mainloop 1 (emit e w')) eq_refl Hl)
              as (post & Hr & Htr & Htr');
            exists (e :: post)
        end.
        rewrite Hr, Htr, Htr'. cbn [set_mainloop emit trace].
        rewrite <- !app_assoc. repeat split.
      * eexists [_; _]. cbn [fst snd emit trace]. rewrite <- !app_assoc.
        repeat split.
      * eexists [_; _]. cbn [fst snd emit trace]. rewrite <- !app_assoc.
        repeat split.
Qed.

Lemma bootstrap_same_events P lib schedule w w' :
  mainloop w' = mainloop w ->
  logopt w' = logopt w ->
  exists post,
    fst (bootstrap P lib schedule w') = fst (bootstrap P lib schedule w)
    /\ trace (snd (bootstrap P lib schedule w)) = trace w ++ post
    /\ trace (snd (bootstrap P lib schedule w')) = trace w' ++ post.
Proof.
  intros Hm Hl. rewrite !bootstrap_run, (log_sinks_logopt P w w' Hl).
  destruct (nc_init_result lib <? 0);
    [| destruct (first_failure lib) as [s|] ].
  - eexists. cbn [fst snd]. rewrite !trace_emits. repeat split.
  - eexists. cbn [fst snd]. rewrite !trace_emits. repeat split.
  - set (es := calls_through P lib Activate ++ _).
    assert (Hm1 : mainloop (emits es w') = mainloop (emits es w))
      by (rewrite !mainloop_emits; exact Hm).
    assert (Hl1 : logopt (emits es w') = logopt (emits es w)).
    { destruct (same_process_emits es w) as (_ & _ & _ & H1).
      destruct (same_process_emits es w') as (_ & _ & _ & H2).
      congruence. }
    destruct (poll_loop_same_events P schedule AtTest (emits es w)
                (emits es w') Hm1 Hl1) as (post & Hr & Htr & Htr').
    unfold bind.
    destruct (poll_loop P schedule AtTest (emits es w)) as [o1 w1].
    destruct (poll_loop P schedule AtTest (emits es w')) as [o1' w1'].
    cbn [fst snd] in Hr, Htr, Htr'. subst o1'.
    rewrite trace_emits in Htr, Htr'.
    destruct o1 as [[]| status | sig |].
    + exists (es ++ post ++ [Call_nc_close]).
      unfold cleanup, bind, nc_close, call, ret. cbn [fst snd emit trace].
      rewrite Htr, Htr', <- !app_assoc. repeat split.
    + exists (es ++ post). cbn [fst snd].
      rewrite Htr, Htr', <- !app_assoc. repeat split.
    + exists (es ++ post). cbn [fst snd].
      rewrite Htr, Htr', <- !app_assoc. repeat split.
    + exists (es ++ post). cbn [fst snd].
      rewrite Htr, Htr', <- !app_assoc. repeat split.
Qed.

(** X11. The verbosity decides the argument of [nc_verbosity] and nothing
    else.  Two runs whose options are [-f] and [-v] flags and agree on
    the presence of [-f], under any two environments, end the same way,
    and their traces are the same but for the level passed to
    [nc_verbosity]. *)
Theorem verbosity_changes_nothing_else
    P argv0 getenv getenv' options options' lib schedule dir :
  forallb goes_on options = true ->
  forallb goes_on options' = true ->
  existsb (is_flag "f") options' = existsb (is_flag "f") options ->
  let r := main P argv0 getenv options lib schedule (start dir) in
  let r' := main P argv0 getenv' options' lib schedule (start dir) in
  fst r' = fst r /\
  exists level level' rest,
    trace (snd r) = prelude_calls P level ++ rest /\
    trace (snd r') = prelude_calls P level' ++ rest.
Proof.
  intros Hall Hall' Hsame. cbn zeta.
  set (level := normalized P (verbose_of P options (env_verbose P getenv))).
  set (level' := normalized P (verbose_of P options' (env_verbose P getenv'))).
  destruct (existsb (is_flag "f") options) eqn:Hf;
    [| destruct (Z.eq_dec (daemon_result lib) 0) as [Hd | Hd] ].
  3: { rewrite !main_daemon_fails by (assumption || congruence).
       cbn [fst snd]. split; [ reflexivity |].
       exists level, level'. eexists. rewrite !trace_emits.
       split; reflexivity. }
  all: rewrite !main_bootstraps by (rewrite ?Hsame, ?Hf; tauto);
    fold level; fold level';
    set (w0 := backgrounded P options (emits (prelude_calls P level) (start dir)));
    set (w0' := backgrounded P options'
                  (emits (prelude_calls P level') (start dir)));
    assert (Hm : mainloop w0' = mainloop w0)
      by (unfold w0, w0', backgrounded; rewrite Hsame, Hf; reflexivity);
    assert (Hl : logopt w0' = logopt w0)
      by (unfold w0, w0', backgrounded; rewrite Hsame, Hf; reflexivity);
    destruct (bootstrap_same_events P lib schedule w0 w0' Hm Hl)
      as (post & Hr & Htr & Htr');
    (split; [ exact Hr |]);
    exists level, level', (background_calls P options ++ post);
    rewrite Htr, Htr'; unfold w0, w0';
    rewrite !trace_before_bootstrap, <- !app_assoc;
    unfold background_calls; rewrite Hsame, Hf;
    split; reflexivity.
Qed.

Lemma verbosity_changes_nothing_else_witness :
  fst (main linux "ofc-server" (fun _ => Some "3") [flag_f] all_succeed
         [Deliver 15; Run] (start "/"))
  = fst (main linux "ofc-server" no_environment [flag_f; flag_v "1"]
           all_succeed [Deliver 15; Run] (start "/")).
Proof.
  apply (proj1 (verbosity_changes_nothing_else linux "ofc-server"
                  no_environment (fun _ => Some "3")
                  [flag_f; flag_v "1"] [flag_f] all_succeed
                  [Deliver 15; Run] "/" eq_refl eq_refl eq_refl)).
Defined.
